(** * Deutsch_Coach: the lesson-generation service and the screens around it

    A shallow embedding of services/geminiService.ts ([mapRawToLesson],
    [validateResponse], [generateLesson], [evaluateWriting]) together with
    the fragment of the JavaScript runtime it runs on: dynamically typed
    values as returned by [JSON.parse], exceptions, truthiness, property
    reads, and the string built-ins [trim], [startsWith], [replace],
    [split] and [toLowerCase]; and of the state handling of the components
    that use it: the stages and the score of components/LessonSession.tsx,
    the lesson bookkeeping of App.tsx, the sessions offered by
    components/Dashboard.tsx and the form of components/Onboarding.tsx.

    Strings are sequences of code units.  The model keeps the code units
    below 256 (one [ascii] each, read as Latin-1); on that range the
    white-space class of [\s] and [trim] and the case mapping of
    [toLowerCase] are the ones written out below. *)

From Stdlib Require Import ZArith String Ascii List Bool Lia DecimalString.
From stdpp Require Import base gmap strings list.

Local Open Scope string_scope.

(** ** JavaScript runtime fragment *)

Set Warnings "-register-all".

Module Js.

(** What a [catch] clause can receive in this file. *)
Inductive error : Type :=
| TransportError   (* the promise of [generateContent] rejected *)
| SyntaxError      (* [JSON.parse] on a text that is not JSON *)
| TypeError.       (* property read on null, call of a non-function *)

(** A computation either completes with a value or throws. *)
Inductive result (A : Type) : Type :=
| Ok (a : A)
| Throw (e : error).
Arguments Ok {A} a.
Arguments Throw {A} e.

Definition bind {A B : Type} (m : result A) (k : A -> result B) : result B :=
  match m with
  | Ok a => k a
  | Throw e => Throw e
  end.

Definition try_catch {A : Type} (body : result A) (handler : error -> result A)
  : result A :=
  match body with
  | Ok a => Ok a
  | Throw e => handler e
  end.

(** [Array.prototype.map] with a callback that may throw. *)
Fixpoint map_result {A B : Type} (f : A -> result B) (l : list A)
  : result (list B) :=
  match l with
  | [] => Ok []
  | x :: rest =>
      bind (f x) (fun y => bind (map_result f rest) (fun ys => Ok (y :: ys)))
  end.

(** Values: what [JSON.parse] can build, plus [undefined].  A number is
    kept as the decimal literal it was read from, [mantissa * 10^exponent];
    an object as its own properties, first binding of a key first. *)
Inductive value : Type :=
| VUndef
| VNull
| VBool (b : bool)
| VNum (mantissa exponent : Z)
| VStr (s : string)
| VArr (items : list value)
| VObj (props : list (string * value)).

(** The double nearest to [m * 10^e] is zero exactly when
    [|m| * 10^e <= 2^-1075] (round to nearest, ties to even). *)
Definition num_is_zero (m e : Z) : bool :=
  (m =? 0)%Z
  || ((e <? 0)%Z && (Z.abs m * 2 ^ 1075 <=? 10 ^ (- e))%Z).

(** ToBoolean. *)
Definition truthy (v : value) : bool :=
  match v with
  | VUndef | VNull => false
  | VBool b => b
  | VNum m e => negb (num_is_zero m e)
  | VStr s => negb (String.eqb s EmptyString)
  | VArr _ | VObj _ => true
  end.

(** [a || b] on values. *)
Definition or_else (a b : value) : value := if truthy a then a else b.

Fixpoint own_prop (props : list (string * value)) (key : string) : option value :=
  match props with
  | [] => None
  | (k, v) :: rest => if String.eqb k key then Some v else own_prop rest key
  end.

(** [v.key], for the keys this service reads: the payload's field names
    (none of which is defined on a built-in prototype) and [length]. *)
Definition get (v : value) (key : string) : result value :=
  match v with
  | VUndef | VNull => Throw TypeError
  | VObj props => Ok (default VUndef (own_prop props key))
  | VArr items =>
      if String.eqb key "length"
      then Ok (VNum (Z.of_nat (length items)) 0) else Ok VUndef
  | VStr s =>
      if String.eqb key "length"
      then Ok (VNum (Z.of_nat (String.length s)) 0) else Ok VUndef
  | VBool _ | VNum _ _ => Ok VUndef
  end.

(** [v === 0]. *)
Definition strict_eq_zero (v : value) : bool :=
  match v with
  | VNum m e => num_is_zero m e
  | _ => false
  end.

(** *** Strings *)

Definition code (c : ascii) : N := N_of_ascii c.

(** The class [\s], which is also what [trim] removes: TAB, LF, VT, FF,
    CR, SP and NBSP among the code units below 256. *)
Definition is_ws (c : ascii) : bool :=
  let n := code c in
  ((9 <=? n) && (n <=? 13) || (n =? 32) || (n =? 160))%N.

Definition lower_char (c : ascii) : ascii :=
  let n := code c in
  if ((65 <=? n) && (n <=? 90)
      || (192 <=? n) && (n <=? 222) && negb (n =? 215))%N
  then ascii_of_N (n + 32) else c.

Fixpoint toLowerCase (s : string) : string :=
  match s with
  | EmptyString => EmptyString
  | String c rest => String (lower_char c) (toLowerCase rest)
  end.

Fixpoint skip_ws (s : string) : string :=
  match s with
  | EmptyString => EmptyString
  | String c rest => if is_ws c then skip_ws rest else s
  end.

Fixpoint trimEnd (s : string) : string :=
  match s with
  | EmptyString => EmptyString
  | String c rest =>
      match trimEnd rest with
      | EmptyString => if is_ws c then EmptyString else String c EmptyString
      | kept => String c kept
      end
  end.

Definition trim (s : string) : string := trimEnd (skip_ws s).

Definition startsWith (s prefix : string) : bool := String.prefix prefix s.

Fixpoint drop_chars (n : nat) (s : string) : string :=
  match n, s with
  | O, _ => s
  | S k, String _ rest => drop_chars k rest
  | S _, EmptyString => EmptyString
  end.

(** [s.replace(/^<lit>\s*/, '')]: the pattern is anchored at the start,
    so it matches only a literal prefix and the white space after it. *)
Definition replace_leading (lit s : string) : string :=
  if startsWith s lit then skip_ws (drop_chars (String.length lit) s) else s.

(** [s.replace(/\s*<lit>$/, '')]: the first position from the left at
    which the rest of the string is white space followed by the literal
    and the end of input; the text from there on is removed. *)
Fixpoint replace_trailing (lit s : string) : string :=
  if String.eqb (skip_ws s) lit then EmptyString
  else match s with
       | EmptyString => EmptyString
       | String c rest => String c (replace_trailing lit rest)
       end.

(** [s.split(/\s+/)]: the pieces between maximal runs of white space; a
    run at either end leaves an empty piece there. *)
Fixpoint split_from (piece : string) (in_run : bool) (s : string) : list string :=
  match s with
  | EmptyString => [piece]
  | String c rest =>
      if is_ws c
      then if in_run then split_from piece true rest
           else piece :: split_from EmptyString true rest
      else split_from (piece ++ String c EmptyString) false rest
  end.

Definition split_ws (s : string) : list string := split_from EmptyString false s.

End Js.

Export Js.

Notation "'let*' x ':=' m 'in' k" := (bind m (fun x => k))
  (at level 10, x name, m at level 100, k at level 200).

(** ** types.ts *)

Inductive LanguageLevel : Type := A0 | A1 | A2 | B1.

Record VocabularyCard : Type := {
  german : value;
  englishExplanation : value;
  hindiTranslation : value;
  exampleSentence : value
}.

Record QuizQuestion : Type := {
  question : value;
  options : value;
  correctAnswer : value;
  explanation : value
}.

(** The fields the mapper copies through are whatever the payload held
    ([VUndef] when the payload had none); [readingQuestions] is declared
    optional in the interface. *)
Record LessonContent : Type := {
  topic : value;
  level : value;
  vocabulary : list VocabularyCard;
  readingText : value;
  readingTextTranslation : value;
  readingQuestions : option (list QuizQuestion);
  writingPrompt : value;
  writingPoints : value;
  listeningScenario : value
}.

(** ** services/geminiService.ts *)

(** [arr.map(f)]: a [TypeError] unless [arr] is an array, since no other
    JSON value has a callable [map]. *)
Definition array_map {B : Type} (arr : value) (f : value -> result B)
  : result (list B) :=
  match arr with
  | VArr items => map_result f items
  | _ => Throw TypeError
  end.

Definition mapVocabularyCard (v : value) : result VocabularyCard :=
  let* de := get v "de" in
  let* en := get v "en" in
  let* hi := get v "hi" in
  let* ex := get v "ex" in
  Ok {| german := de; englishExplanation := en;
        hindiTranslation := hi; exampleSentence := ex |}.

Definition mapQuizQuestion (q : value) : result QuizQuestion :=
  let* qu := get q "qu" in
  let* ops := get q "ops" in
  let* ans := get q "ans" in
  let* exp := get q "exp" in
  Ok {| question := qu; options := ops; correctAnswer := ans; explanation := exp |}.

Definition mapRawToLesson (raw : value) : result LessonContent :=
  let* t := get raw "t" in
  let* l := get raw "l" in
  let* voc := get raw "voc" in
  let* cards := array_map (or_else voc (VArr [])) mapVocabularyCard in
  let* txt := get raw "txt" in
  let* txt_tr := get raw "txt_tr" in
  let* q := get raw "q" in
  let* questions := array_map (or_else q (VArr [])) mapQuizQuestion in
  let* wr := get raw "wr" in
  let* pts := get raw "pts" in
  let* lis := get raw "lis" in
  Ok {| topic := or_else t (VStr "Lesson");
        level := or_else l (VStr "A1");
        vocabulary := cards;
        readingText := txt;
        readingTextTranslation := txt_tr;
        readingQuestions := Some questions;
        writingPrompt := wr;
        writingPoints := pts;
        listeningScenario := lis |}.

(** *** The frequency table of validateResponse

    [wordFreq] starts as the object literal [{}], so a read of a key it
    does not own falls through to [Object.prototype].  After
    [toLowerCase] two words can meet a property there: [constructor] (the
    function [Object]) and [__proto__] (an accessor: reading gives the
    prototype object, assigning a primitive does nothing). *)
Inductive entry : Type :=
| Undefined
| Count (n : nat)
| Text (s : string)        (* result of [+] on a non-number, see [plus_one] *)
| FunctionObject           (* Object.prototype.constructor *)
| ObjectPrototype.         (* what the [__proto__] getter returns *)

Definition freq_get (wordFreq : gmap string entry) (word : string) : entry :=
  if String.eqb word "__proto__" then ObjectPrototype
  else match wordFreq !! word with
       | Some e => e
       | None => if String.eqb word "constructor" then FunctionObject else Undefined
       end.

Definition freq_set (wordFreq : gmap string entry) (word : string) (e : entry)
  : gmap string entry :=
  if String.eqb word "__proto__" then wordFreq else <[word := e]> wordFreq.

(** [(e || 0) + 1]: addition on numbers, concatenation once an operand
    converts to a string. *)
Definition plus_one (e : entry) : entry :=
  match e with
  | Undefined => Count 1
  | Count n => Count (n + 1)%nat
  | Text s => if String.eqb s EmptyString then Count 1 else Text (s ++ "1")
  | FunctionObject => Text "function Object() { [native code] }1"
  | ObjectPrototype => Text "[object Object]1"
  end.

(** [e > 8].  The texts that can be stored, and the two prototype values,
    convert to NaN, and NaN compares false. *)
Definition exceeds_8 (e : entry) : bool :=
  match e with
  | Count n => (8 <? n)%nat
  | _ => false
  end.

(** The [for (const word of words)] loop; [true] when it reaches its
    [return false]. *)
Fixpoint repetition_detected (words : list string) (wordFreq : gmap string entry)
  : bool :=
  match words with
  | [] => false
  | word :: rest =>
      if (3 <? String.length word)%nat
      then let wordFreq' := freq_set wordFreq word (plus_one (freq_get wordFreq word)) in
           if exceeds_8 (freq_get wordFreq' word) then true
           else repetition_detected rest wordFreq'
      else repetition_detected rest wordFreq
  end.

Definition maxWords (lvl : LanguageLevel) : nat :=
  match lvl with
  | A0 => 60
  | _ => 150
  end.

(** The [if (raw.txt) { ... }] block; [Ok false] when it returns false from
    the function, [Ok true] when control goes on to the vocabulary check. *)
Definition check_text (txt : value) (lvl : LanguageLevel) : result bool :=
  if truthy txt
  then match txt with
       | VStr s =>
           let wordCount := length (split_ws s) in
           if (maxWords lvl <? wordCount)%nat then Ok false
           else if repetition_detected (split_ws (toLowerCase s)) ∅ then Ok false
           else Ok true
       | _ => Throw TypeError
       end
  else Ok true.

Definition validateResponse (raw : value) (lvl : LanguageLevel) : result bool :=
  let* txt := get raw "txt" in
  let* text_ok := check_text txt lvl in
  if negb text_ok then Ok false
  else
    let* voc := get raw "voc" in
    if negb (truthy voc) then Ok false
    else
      let* len := get voc "length" in
      if strict_eq_zero len then Ok false else Ok true.

(** *** The response schema

    The property types of the [responseSchema] passed to the model.  The
    [required] lists are left out: a payload may lack any field, and
    [validateResponse] itself checks for the vocabulary. *)
Definition is_string (v : value) : bool :=
  match v with VStr _ => true | _ => false end.

Definition is_number (v : value) : bool :=
  match v with VNum _ _ => true | _ => false end.

Definition is_array_of (item : value -> bool) (v : value) : bool :=
  match v with VArr items => forallb item items | _ => false end.

Definition field_is (check : value -> bool) (props : list (string * value))
  (key : string) : bool :=
  match own_prop props key with
  | None => true
  | Some v => check v
  end.

Definition vocabulary_item_shape (v : value) : bool :=
  match v with
  | VObj p =>
      field_is is_string p "de" && field_is is_string p "en"
      && field_is is_string p "hi" && field_is is_string p "ex"
  | _ => false
  end.

Definition question_shape (v : value) : bool :=
  match v with
  | VObj p =>
      field_is is_string p "qu" && field_is (is_array_of is_string) p "ops"
      && field_is is_number p "ans" && field_is is_string p "exp"
  | _ => false
  end.

Definition payload_shape (raw : value) : bool :=
  match raw with
  | VObj p =>
      field_is is_string p "t" && field_is is_string p "l"
      && field_is (is_array_of vocabulary_item_shape) p "voc"
      && field_is is_string p "txt" && field_is is_string p "txt_tr"
      && field_is (is_array_of question_shape) p "q"
      && field_is is_string p "wr"
      && field_is (is_array_of is_string) p "pts"
      && field_is is_string p "lis"
  | _ => false
  end.

(** *** The model call

    What [await ai.models.generateContent(...)] does: the promise rejects,
    or it resolves to a response whose [text] is a string or undefined. *)
Inductive response : Type :=
| Rejected
| Resolved (text : option string).

(** What one invocation did besides returning: the model calls made and
    the back-off delays (in milliseconds) it waited for, oldest first. *)
Record trace : Type := {
  calls : nat;
  delays : list nat
}.

Definition called (tr : trace) : trace :=
  {| calls := S (calls tr); delays := delays tr |}.

Definition waited (ms : nat) (tr : trace) : trace :=
  {| calls := calls tr; delays := delays tr ++ [ms] |}.

Definition fence : string := "```".
Definition json_fence : string := "```json".

(** The clean-up of [response.text] before [JSON.parse]. *)
Definition cleanText (text : string) : string :=
  let cleaned := trim text in
  if startsWith cleaned json_fence
  then replace_trailing fence (replace_leading json_fence cleaned)
  else if startsWith cleaned fence
       then replace_trailing fence (replace_leading fence cleaned)
       else cleaned.

Section Service.

(** [JSON.parse]: a built-in, taken as given. *)
Variable JSON_parse : string -> result value.

Definition parseResponse (text : string) : result value :=
  JSON_parse (cleanText text).

(** The [try] block of one attempt.  [Ok (Some lesson)] is [return lesson];
    [Ok None] leaves the block for the next round of the loop (the
    [continue], or a response without text); [Throw] goes to the [catch]. *)
Definition attempt_body (lvl : LanguageLevel) (attempt : nat) (r : response)
  : result (option LessonContent) :=
  match r with
  | Rejected => Throw TransportError
  | Resolved text =>
      if truthy (from_option VStr VUndef text)
      then
        let* rawData := parseResponse (default EmptyString text) in
        let* valid := validateResponse rawData lvl in
        if valid
        then let* lesson := mapRawToLesson rawData in Ok (Some lesson)
        else if (attempt =? 2)%nat
             then let* lesson := mapRawToLesson rawData in Ok (Some lesson)
             else Ok None
      else Ok None
  end.

(** The retry loop, [remaining] rounds before [attempt < 3] fails.  The
    model answers the [attempt]-th call with [model attempt]. *)
Fixpoint retry_loop (lvl : LanguageLevel) (model : nat -> response)
  (remaining attempt : nat) (tr : trace) : option LessonContent * trace :=
  match remaining with
  | O => (None, tr)
  | S k =>
      let tr := called tr in
      match attempt_body lvl attempt (model attempt) with
      | Ok (Some lesson) => (Some lesson, tr)
      | Ok None => retry_loop lvl model k (S attempt) tr
      | Throw _ =>
          if (attempt =? 2)%nat then (None, tr)
          else retry_loop lvl model k (S attempt)
                 (waited (1000 * (attempt + 1)) tr)
      end
  end.

(** The session type and the topic only shape the prompt, which is the
    same for every attempt; the answers are [model]'s. *)
Definition generateLesson (lvl : LanguageLevel) (model : nat -> response)
  : option LessonContent * trace :=
  retry_loop lvl model 3 0 {| calls := 0; delays := [] |}.

End Service.

Definition feedback_missing : string := "Could not generate feedback.".
Definition feedback_error : string := "Error generating feedback. Please try again.".

(** [evaluateWriting]: one call, no retry.  The arguments of the source
    function go into the request; [r] is what the call does. *)
Definition evaluateWriting (r : response) : result string :=
  try_catch
    (match r with
     | Rejected => Throw TransportError
     | Resolved text =>
         let t := from_option VStr VUndef text in
         Ok (if truthy t then default EmptyString text else feedback_missing)
     end)
    (fun _ => Ok feedback_error).

(** ** Sample documents

    String literals here never contain a quotation mark; JSON texts are
    assembled with [quoted]. *)
Definition dquote : string := String "034"%char EmptyString.
Definition newline : string := String "010"%char EmptyString.
Definition quoted (s : string) : string := dquote ++ s ++ dquote.

(** The text of the empty object, of [{"t":"x"}] and of the minimal
    payload of one vocabulary card. *)
Definition doc_empty : string := "{}".
Definition doc_tx : string := "{" ++ quoted "t" ++ ":" ++ quoted "x" ++ "}".
Definition doc_greetings : string :=
  "{" ++ quoted "t" ++ ":" ++ quoted "Greetings" ++ ","
      ++ quoted "l" ++ ":" ++ quoted "A1" ++ ","
      ++ quoted "voc" ++ ":[{"
      ++ quoted "de" ++ ":" ++ quoted "Hallo" ++ ","
      ++ quoted "en" ++ ":" ++ quoted "Hello" ++ ","
      ++ quoted "hi" ++ ":" ++ quoted "Namaste" ++ ","
      ++ quoted "ex" ++ ":" ++ quoted "Hallo!" ++ "}]}".

Definition hallo_card : value :=
  VObj [("de", VStr "Hallo"); ("en", VStr "Hello");
        ("hi", VStr "Namaste"); ("ex", VStr "Hallo!")].

Definition greetings_payload : value :=
  VObj [("t", VStr "Greetings"); ("l", VStr "A1"); ("voc", VArr [hallo_card])].

(** [JSON.parse] on the sample documents, for the closed examples: each
    listed text is paired with the value [JSON.parse] builds from it. *)
Definition sample_documents : list (string * value) :=
  [ (doc_empty, VObj []);
    (doc_tx, VObj [("t", VStr "x")]);
    (doc_greetings, greetings_payload) ].

Definition JSON_parse_sample (text : string) : result value :=
  match own_prop sample_documents text with
  | Some v => Ok v
  | None => Throw SyntaxError
  end.

(** [n] copies of [word] joined by single spaces. *)
Fixpoint repeat_word (n : nat) (word : string) : string :=
  match n with
  | O => EmptyString
  | S O => word
  | S k => word ++ " " ++ repeat_word k word
  end.

(** The first character of a JSON value: an opening brace or bracket, a
    quotation mark, a minus sign, a digit, or the first letter of [true],
    [false] or [null]. *)
Definition json_start (c : ascii) : bool :=
  let n := code c in
  ((n =? 123) || (n =? 91) || (n =? 34) || (n =? 45)
   || (48 <=? n) && (n <=? 57)
   || (n =? 116) || (n =? 102) || (n =? 110))%N.

(** [doc] holds something other than white space, and that begins as a
    JSON value does. *)
Definition json_document (doc : string) : bool :=
  match skip_ws doc with
  | String c _ => json_start c
  | EmptyString => false
  end.

Definition all_ws (s : string) : bool := String.eqb (skip_ws s) EmptyString.

(** [the call resolved with a text that parses to raw]. *)
Definition parsed (JSON_parse : string -> result value) (r : response)
  (raw : value) : Prop :=
  exists text, r = Resolved (Some text) /\ text <> EmptyString
               /\ parseResponse JSON_parse text = Ok raw.

(** ** Vocabulary of the statements *)

Definition occurrences (w : string) (words : list string) : nat :=
  count_occ string_dec words w.

(** The count the table holds for [w]; zero while it holds none. *)
Definition counted (wordFreq : gmap string entry) (w : string) : nat :=
  match freq_get wordFreq w with
  | Count n => n
  | _ => 0
  end.

(** The words that meet nothing on [Object.prototype]. *)
Definition ordinary (w : string) : Prop := w <> "constructor" /\ w <> "__proto__".

(** For an ordinary word the table holds a count or nothing. *)
Definition tidy (wordFreq : gmap string entry) (w : string) : Prop :=
  freq_get wordFreq w = Undefined \/ exists n, freq_get wordFreq w = Count n.

(** Nine times the word [constructor]. *)
Definition constructor_text : string := repeat_word 9 "constructor".

Definition constructor_payload : value :=
  VObj [("txt", VStr constructor_text); ("voc", VArr [hallo_card])].

(** *** Model answers for the closed runs *)

(** Two rejected calls, then the minimal payload. *)
Definition third_time_lucky (i : nat) : response :=
  match i with
  | 2 => Resolved (Some doc_greetings)
  | _ => Rejected
  end.

(** The empty object every time. *)
Definition always_empty_object (_ : nat) : response := Resolved (Some doc_empty).

(** The empty object once, then two rejected calls. *)
Definition empty_object_then_rejected (i : nat) : response :=
  match i with
  | 0 => Resolved (Some doc_empty)
  | _ => Rejected
  end.

(** ** Where the service throws *)

Definition is_nullish (v : value) : bool :=
  match v with VUndef | VNull => true | _ => false end.

(** [v.key] where the read cannot throw; [VUndef] stands in where it would. *)
Definition field (v : value) (key : string) : value :=
  match get v key with
  | Ok x => x
  | Throw _ => VUndef
  end.

(** What [(list || []).map(item => item.key ...)] needs: [list] falsy, or
    an array without null or undefined items. *)
Definition mappable_list (list : value) : bool :=
  if truthy list
  then match list with
       | VArr items => forallb (fun item => negb (is_nullish item)) items
       | _ => false
       end
  else true.

Definition mappable (raw : value) : bool :=
  negb (is_nullish raw)
  && mappable_list (field raw "voc") && mappable_list (field raw "q").

(** What [validateResponse] needs: something to read [txt] from, and a
    [txt] that is falsy or a string. *)
Definition checkable (raw : value) : bool :=
  negb (is_nullish raw)
  && (negb (truthy (field raw "txt")) || is_string (field raw "txt")).

(** The card and the question as the mapper renames them. *)
Definition card_of (item : value) (card : VocabularyCard) : Prop :=
  get item "de" = Ok (german card)
  /\ get item "en" = Ok (englishExplanation card)
  /\ get item "hi" = Ok (hindiTranslation card)
  /\ get item "ex" = Ok (exampleSentence card).

Definition question_of (item : value) (q : QuizQuestion) : Prop :=
  get item "qu" = Ok (question q)
  /\ get item "ops" = Ok (options q)
  /\ get item "ans" = Ok (correctAnswer q)
  /\ get item "exp" = Ok (explanation q).

(** The attempt went to the [catch] clause. *)
Definition attempt_throws (JSON_parse : string -> result value)
  (lvl : LanguageLevel) (model : nat -> response) (attempt : nat) : Prop :=
  exists e, attempt_body JSON_parse lvl attempt (model attempt) = Throw e.

(** The words of a reading text as the repetition check sees them. *)
Definition words_of (s : string) : list string := split_ws (toLowerCase s).

(** The lesson the mapper makes of the minimal payload. *)
Definition greetings_lesson : LessonContent :=
  {| topic := VStr "Greetings";
     level := VStr "A1";
     vocabulary := [ {| german := VStr "Hallo";
                        englishExplanation := VStr "Hello";
                        hindiTranslation := VStr "Namaste";
                        exampleSentence := VStr "Hallo!" |} ];
     readingText := VUndef;
     readingTextTranslation := VUndef;
     readingQuestions := Some [];
     writingPrompt := VUndef;
     writingPoints := VUndef;
     listeningScenario := VUndef |}.

(** ** components/LessonSession.tsx

    The component's state hooks are the fields of [Session]; each handler
    is a function on that state; what the rendered page lets the user do
    is [enabled]. *)

Inductive Stage : Type := Loading | Vocab | Reading | Writing | Feedback | Finished.

Record Session : Type := {
  content : option LessonContent;
  stage : Stage;
  currentCardIndex : nat;
  readingAnswers : gmap nat nat;
  showTranslation : bool;
  writingText : string;
  writingFeedback : string;
  isEvaluating : bool;
  score : nat
}.

(** The initial values of the hooks. *)
Definition initial_session : Session :=
  {| content := None; stage := Loading; currentCardIndex := 0;
     readingAnswers := ∅; showTranslation := false;
     writingText := EmptyString; writingFeedback := EmptyString;
     isEvaluating := false; score := 0 |}.

Definition setContent (c : option LessonContent) (s : Session) : Session :=
  {| content := c; stage := stage s; currentCardIndex := currentCardIndex s;
     readingAnswers := readingAnswers s; showTranslation := showTranslation s;
     writingText := writingText s; writingFeedback := writingFeedback s;
     isEvaluating := isEvaluating s; score := score s |}.

Definition setStage (st : Stage) (s : Session) : Session :=
  {| content := content s; stage := st; currentCardIndex := currentCardIndex s;
     readingAnswers := readingAnswers s; showTranslation := showTranslation s;
     writingText := writingText s; writingFeedback := writingFeedback s;
     isEvaluating := isEvaluating s; score := score s |}.

Definition setCurrentCardIndex (i : nat) (s : Session) : Session :=
  {| content := content s; stage := stage s; currentCardIndex := i;
     readingAnswers := readingAnswers s; showTranslation := showTranslation s;
     writingText := writingText s; writingFeedback := writingFeedback s;
     isEvaluating := isEvaluating s; score := score s |}.

Definition setReadingAnswers (a : gmap nat nat) (s : Session) : Session :=
  {| content := content s; stage := stage s; currentCardIndex := currentCardIndex s;
     readingAnswers := a; showTranslation := showTranslation s;
     writingText := writingText s; writingFeedback := writingFeedback s;
     isEvaluating := isEvaluating s; score := score s |}.

Definition setShowTranslation (b : bool) (s : Session) : Session :=
  {| content := content s; stage := stage s; currentCardIndex := currentCardIndex s;
     readingAnswers := readingAnswers s; showTranslation := b;
     writingText := writingText s; writingFeedback := writingFeedback s;
     isEvaluating := isEvaluating s; score := score s |}.

Definition setWritingText (t : string) (s : Session) : Session :=
  {| content := content s; stage := stage s; currentCardIndex := currentCardIndex s;
     readingAnswers := readingAnswers s; showTranslation := showTranslation s;
     writingText := t; writingFeedback := writingFeedback s;
     isEvaluating := isEvaluating s; score := score s |}.

Definition setWritingFeedback (t : string) (s : Session) : Session :=
  {| content := content s; stage := stage s; currentCardIndex := currentCardIndex s;
     readingAnswers := readingAnswers s; showTranslation := showTranslation s;
     writingText := writingText s; writingFeedback := t;
     isEvaluating := isEvaluating s; score := score s |}.

Definition setIsEvaluating (b : bool) (s : Session) : Session :=
  {| content := content s; stage := stage s; currentCardIndex := currentCardIndex s;
     readingAnswers := readingAnswers s; showTranslation := showTranslation s;
     writingText := writingText s; writingFeedback := writingFeedback s;
     isEvaluating := b; score := score s |}.

Definition setScore (n : nat) (s : Session) : Session :=
  {| content := content s; stage := stage s; currentCardIndex := currentCardIndex s;
     readingAnswers := readingAnswers s; showTranslation := showTranslation s;
     writingText := writingText s; writingFeedback := writingFeedback s;
     isEvaluating := isEvaluating s; score := n |}.

(** The body of [loadContent] after the [await]: [data] is what
    [generateLesson] returned. *)
Definition loadContent (isMounted : bool) (data : option LessonContent)
  (s : Session) : Session :=
  match data with
  | Some lesson =>
      if isMounted
      then let s := setContent (Some lesson) s in
           if (0 <? length (vocabulary lesson))%nat then setStage Vocab s
           else if truthy (readingText lesson) then setStage Reading s
           else if truthy (writingPrompt lesson) then setStage Writing s
           else setStage Finished s
      else s
  | None => s
  end.

Definition handleNext (s : Session) : Session :=
  match content s with
  | None => s
  | Some c =>
      match stage s with
      | Vocab =>
          if (Z.of_nat (currentCardIndex s)
              <? Z.of_nat (length (vocabulary c)) - 1)%Z
          then setCurrentCardIndex (currentCardIndex s + 1) s
          else if truthy (readingText c)
               then setShowTranslation false (setStage Reading s)
               else if truthy (writingPrompt c) then setStage Writing s
                    else setStage Finished s
      | Reading =>
          if truthy (writingPrompt c) then setStage Writing s
          else setStage Finished s
      | _ => s
      end
  end.

(** [content.readingQuestions?.map(...)] walks this list;
    [content.readingQuestions?.length || 0] is its length. *)
Definition questions_of (c : LessonContent) : list QuizQuestion :=
  default [] (readingQuestions c).

(** The stages in the order the session goes through them. *)
Definition stage_rank (st : Stage) : nat :=
  match st with
  | Loading => 0
  | Vocab => 1
  | Reading => 2
  | Writing => 3
  | Feedback => 4
  | Finished => 5
  end.

Definition stage_eqb (a b : Stage) : bool := (stage_rank a =? stage_rank b)%nat.

Section SessionModel.

(** [optIdx === q.correctAnswer], the comparison of an option's index with
    the answer the payload names: an operator of the language, taken as
    given. *)
Variable same_number : nat -> value -> bool.

(** The [level] the component was given. *)
Variable lvl : LanguageLevel.

(** The [onClick] of an option button of question [idx]. *)
Definition selectOption (q : QuizQuestion) (idx optIdx : nat) (s : Session)
  : Session :=
  let s := setReadingAnswers (<[idx := optIdx]> (readingAnswers s)) s in
  if same_number optIdx (correctAnswer q) then setScore (score s + 5) s else s.

(** [submitWriting]; [r] is what the model call inside [evaluateWriting]
    does.  The two updates around the [await] are taken in one step. *)
Definition submitWriting (r : response) (s : Session) : Session :=
  match content s with
  | None => s
  | Some c =>
      if truthy (writingPrompt c)
      then match evaluateWriting r with
           | Ok feedback =>
               setScore (score s + 10)
                 (setStage Feedback
                    (setIsEvaluating false (setWritingFeedback feedback s)))
           | Throw _ => setIsEvaluating true s
           end
      else s
  end.

(** What the user can do on the page. *)
Inductive event : Type :=
| ClickNextWord
| ClickOption (idx optIdx : nat)
| ClickTranslate
| ClickContinue
| TypeWriting (text : string)
| ClickGetFeedback (r : response)
| ClickSeeSummary.

(** Whether the control is on the page and not disabled.  Nothing but the
    spinner is rendered while the stage is [Loading], and every stage view
    sits behind the check for [content]. *)
Definition enabled (ev : event) (s : Session) : bool :=
  match content s with
  | None => false
  | Some c =>
      match ev with
      | ClickNextWord => stage_eqb (stage s) Vocab
      | ClickOption idx optIdx =>
          stage_eqb (stage s) Reading && truthy (readingText c)
          && match questions_of c !! idx with
             | Some q =>
                 match options q with
                 | VArr opts => (optIdx <? length opts)%nat
                 | _ => false
                 end
             | None => false
             end
          && bool_decide (readingAnswers s !! idx = None)
      | ClickTranslate =>
          stage_eqb (stage s) Reading && truthy (readingText c)
          && (match lvl with A0 => true | _ => false end
              || truthy (readingTextTranslation c))
      | ClickContinue =>
          stage_eqb (stage s) Reading && truthy (readingText c)
          && (size (readingAnswers s) =? length (questions_of c))%nat
      | TypeWriting _ => stage_eqb (stage s) Writing
      | ClickGetFeedback _ =>
          stage_eqb (stage s) Writing
          && negb ((String.length (writingText s) <? 10)%nat || isEvaluating s)
      | ClickSeeSummary => stage_eqb (stage s) Feedback
      end
  end.

Definition handle (ev : event) (s : Session) : Session :=
  match ev with
  | ClickNextWord | ClickContinue => handleNext s
  | ClickOption idx optIdx =>
      match content s with
      | Some c =>
          match questions_of c !! idx with
          | Some q => selectOption q idx optIdx s
          | None => s
          end
      | None => s
      end
  | ClickTranslate => setShowTranslation (negb (showTranslation s)) s
  | TypeWriting text => setWritingText text s
  | ClickGetFeedback r => submitWriting r s
  | ClickSeeSummary => setStage Finished s
  end.

Definition dispatch (s : Session) (ev : event) : Session :=
  if enabled ev s then handle ev s else s.

(** The session after the lesson request has answered [data] and the user
    has done [events]. *)
Definition session_after (data : option LessonContent) (events : list event)
  : Session :=
  fold_left dispatch events (loadContent true data initial_session).

End SessionModel.

(** What the writing task adds to the score once it has been submitted. *)
Definition writing_reward (st : Stage) : nat :=
  match st with
  | Feedback | Finished => 10
  | _ => 0
  end.

(** What holds of every session the page can be in. *)
Definition session_ok (s : Session) : Prop :=
  match content s with
  | None => s = initial_session
  | Some c =>
      stage s <> Loading
      /\ (stage s = Vocab -> currentCardIndex s < length (vocabulary c))
      /\ (stage s = Reading -> truthy (readingText c) = true)
      /\ (stage s = Writing -> truthy (writingPrompt c) = true)
      /\ (forall idx opt, readingAnswers s !! idx = Some opt ->
                          idx < length (questions_of c))
      /\ score s <= 5 * size (readingAnswers s) + writing_reward (stage s)
  end.

(** ** types.ts: the application state *)

Record UserProfile : Type := {
  name : string;
  targetLevel : LanguageLevel;
  currentLevel : LanguageLevel;
  dailyMinutes : Z;
  nativeLanguage : string;
  readDevanagari : bool;
  onboardingComplete : bool
}.

Record LevelProgress : Type := {
  lessonsDone : Z;
  totalLessons : Z
}.

(** [CourseProgress] has the keys A1, A2 and B1, and no key A0. *)
Record CourseProgress : Type := {
  courseA1 : LevelProgress;
  courseA2 : LevelProgress;
  courseB1 : LevelProgress
}.

Record ExamStats : Type := {
  lastScore : string;
  weakPoints : list string;
  lastSessionDate : string
}.

Record AppState : Type := {
  profile : UserProfile;
  courseProgress : CourseProgress;
  examStats : ExamStats
}.

Definition INITIAL_STATE : AppState :=
  {| profile := {| name := EmptyString; targetLevel := B1; currentLevel := A0;
                   dailyMinutes := 15; nativeLanguage := "Hindi";
                   readDevanagari := false; onboardingComplete := false |};
     courseProgress :=
       {| courseA1 := {| lessonsDone := 0; totalLessons := 20 |};
          courseA2 := {| lessonsDone := 0; totalLessons := 25 |};
          courseB1 := {| lessonsDone := 0; totalLessons := 30 |} |};
     examStats := {| lastScore := "N/A"; weakPoints := [];
                     lastSessionDate := EmptyString |} |}.

(** [courseProgress[level]]. *)
Definition progress_at (cp : CourseProgress) (lvl : LanguageLevel)
  : option LevelProgress :=
  match lvl with
  | A0 => None
  | A1 => Some (courseA1 cp)
  | A2 => Some (courseA2 cp)
  | B1 => Some (courseB1 cp)
  end.

(** [courseProgress[level].lessonsDone = n], for a key that is there. *)
Definition set_lessonsDone (cp : CourseProgress) (lvl : LanguageLevel) (n : Z)
  : CourseProgress :=
  let bump p := {| lessonsDone := n; totalLessons := totalLessons p |} in
  match lvl with
  | A0 => cp
  | A1 => {| courseA1 := bump (courseA1 cp); courseA2 := courseA2 cp;
             courseB1 := courseB1 cp |}
  | A2 => {| courseA1 := courseA1 cp; courseA2 := bump (courseA2 cp);
             courseB1 := courseB1 cp |}
  | B1 => {| courseA1 := courseA1 cp; courseA2 := courseA2 cp;
             courseB1 := bump (courseB1 cp) |}
  end.

(** ** App.tsx *)

Inductive SessionType : Type := Daily | Exam | Topic.

Inductive View : Type := ViewLoading | ViewOnboarding | ViewDashboard | ViewLesson.

Record App : Type := {
  state : AppState;
  view : View;
  activeLessonType : option (SessionType * LanguageLevel)
}.

(** The app once the mount effect has found nothing in local storage. *)
Definition fresh_app : App :=
  {| state := INITIAL_STATE; view := ViewOnboarding; activeLessonType := None |}.

Definition handleOnboardingComplete (p : UserProfile) (app : App) : App :=
  {| state :=
       {| profile :=
            {| name := name p; targetLevel := targetLevel p;
               currentLevel := currentLevel p; dailyMinutes := dailyMinutes p;
               nativeLanguage := nativeLanguage p;
               readDevanagari := readDevanagari p; onboardingComplete := true |};
          courseProgress := courseProgress (state app);
          examStats := examStats (state app) |};
     view := ViewDashboard;
     activeLessonType := activeLessonType app |}.

Definition handleStartSession (type : SessionType) (lvl : LanguageLevel)
  (app : App) : App :=
  {| state := state app; view := ViewLesson;
     activeLessonType := Some (type, lvl) |}.

(** [`Score: ${score}`]. *)
Definition score_text (score : nat) : string :=
  "Score: " ++ NilZero.string_of_uint (Nat.to_uint score).

(** The function [handleLessonComplete] hands to [setState].  [now] is
    [new Date().toISOString()].  Reading [lessonsDone] of a key that
    [courseProgress] does not have is a TypeError. *)
Definition lessonCompleteUpdate
  (active : option (SessionType * LanguageLevel)) (now : string) (score : nat)
  (prev : AppState) : result AppState :=
  let lvl := match active with Some (_, l) => l | None => A1 end in
  match progress_at (courseProgress prev) lvl with
  | None => Throw TypeError
  | Some p =>
      let progress :=
        if (lessonsDone p <? totalLessons p)%Z
        then set_lessonsDone (courseProgress prev) lvl (lessonsDone p + 1)
        else courseProgress prev in
      let stats :=
        match active with
        | Some (Exam, _) =>
            {| lastScore := score_text score;
               weakPoints := weakPoints (examStats prev);
               lastSessionDate := now |}
        | _ => examStats prev
        end in
      Ok {| profile := profile prev; courseProgress := progress;
            examStats := stats |}
  end.

Definition handleLessonComplete (now : string) (score : nat) (app : App)
  : result App :=
  let* next := lessonCompleteUpdate (activeLessonType app) now score (state app) in
  Ok {| state := next; view := ViewDashboard; activeLessonType := None |}.

(** One lesson from the dashboard to its summary: start it, finish it. *)
Definition takeLesson (type : SessionType) (lvl : LanguageLevel) (now : string)
  (score : nat) (app : App) : result App :=
  handleLessonComplete now score (handleStartSession type lvl app).

Fixpoint takeLessons (n : nat) (type : SessionType) (lvl : LanguageLevel)
  (now : string) (score : nat) (app : App) : result App :=
  match n with
  | O => Ok app
  | S k =>
      let* next := takeLesson type lvl now score app in
      takeLessons k type lvl now score next
  end.

(** ** components/Dashboard.tsx *)

(** The sessions the dashboard has a button for, as the arguments of
    [onStartSession]: the daily training at the current level, the course
    of the current level when it is A1, A2 or B1, and the B1 exam. *)
Definition dashboard_offers (p : UserProfile) : list (SessionType * LanguageLevel) :=
  [(Daily, currentLevel p)]
  ++ match currentLevel p with
     | A0 => []
     | l => [(Topic, l)]
     end
  ++ [(Exam, B1)].

(** ** components/Onboarding.tsx *)

Record OnboardingForm : Type := {
  step : nat;
  data : UserProfile
}.

Definition initial_form : OnboardingForm :=
  {| step := 1;
     data := {| name := EmptyString; targetLevel := B1; currentLevel := A0;
                dailyMinutes := 20; nativeLanguage := "Hindi";
                readDevanagari := false; onboardingComplete := false |} |}.

Inductive onboarding_event : Type :=
| TypeName (text : string)
| ClickNext
| PickLevel (lvl : LanguageLevel)
| PickDevanagari (yes : bool)
| SlideMinutes (minutes : Z)      (* [parseInt(e.target.value)] *)
| ClickStart.

(** The control is on the page of the current step and not disabled. *)
Definition onboarding_enabled (ev : onboarding_event) (f : OnboardingForm) : bool :=
  match ev with
  | TypeName _ => (step f =? 1)%nat
  | ClickNext =>
      (step f =? 1)%nat && truthy (VStr (name (data f))) || (step f =? 2)%nat
  | PickLevel _ => (step f =? 2)%nat
  | PickDevanagari _ | SlideMinutes _ | ClickStart => (step f =? 3)%nat
  end.

Definition with_data (d : UserProfile) (f : OnboardingForm) : OnboardingForm :=
  {| step := step f; data := d |}.

Definition onboarding_handle (ev : onboarding_event) (f : OnboardingForm)
  : OnboardingForm :=
  let d := data f in
  match ev with
  | TypeName text =>
      with_data {| name := text; targetLevel := targetLevel d;
                   currentLevel := currentLevel d; dailyMinutes := dailyMinutes d;
                   nativeLanguage := nativeLanguage d;
                   readDevanagari := readDevanagari d;
                   onboardingComplete := onboardingComplete d |} f
  | ClickNext => {| step := step f + 1; data := d |}
  | PickLevel lvl =>
      with_data {| name := name d; targetLevel := targetLevel d;
                   currentLevel := lvl; dailyMinutes := dailyMinutes d;
                   nativeLanguage := nativeLanguage d;
                   readDevanagari := readDevanagari d;
                   onboardingComplete := onboardingComplete d |} f
  | PickDevanagari yes =>
      with_data {| name := name d; targetLevel := targetLevel d;
                   currentLevel := currentLevel d; dailyMinutes := dailyMinutes d;
                   nativeLanguage := nativeLanguage d;
                   readDevanagari := yes;
                   onboardingComplete := onboardingComplete d |} f
  | SlideMinutes minutes =>
      with_data {| name := name d; targetLevel := targetLevel d;
                   currentLevel := currentLevel d; dailyMinutes := minutes;
                   nativeLanguage := nativeLanguage d;
                   readDevanagari := readDevanagari d;
                   onboardingComplete := onboardingComplete d |} f
  | ClickStart => f
  end.

(** The profile [finish] hands to [onComplete], at the first click on
    Start Learning that the page allows; [None] while there was none. *)
Fixpoint onboarding_result (events : list onboarding_event) (f : OnboardingForm)
  : option UserProfile :=
  match events with
  | [] => None
  | ev :: rest =>
      if onboarding_enabled ev f
      then match ev with
           | ClickStart => Some (data f)
           | _ => onboarding_result rest (onboarding_handle ev f)
           end
      else onboarding_result rest f
  end.

(** No level button was clicked. *)
Definition level_untouched (events : list onboarding_event) : Prop :=
  forall lvl, ~ In (PickLevel lvl) events.

(** *** Samples for the closed statements *)

(** [===] on the answers that are written as integer literals. *)
Definition same_integer (optIdx : nat) (answer : value) : bool :=
  match answer with
  | VNum m 0 => (m =? Z.of_nat optIdx)%Z
  | _ => false
  end.

(** A lesson with two cards, a text with one question, and a writing task. *)
Definition sample_lesson : LessonContent :=
  {| topic := VStr "Greetings";
     level := VStr "A1";
     vocabulary :=
       [ {| german := VStr "Hallo"; englishExplanation := VStr "Hello";
            hindiTranslation := VStr "Namaste"; exampleSentence := VStr "Hallo!" |};
         {| german := VStr "Name"; englishExplanation := VStr "Name";
            hindiTranslation := VStr "Naam"; exampleSentence := VStr "Mein Name ist Ria." |} ];
     readingText := VStr "Hallo! Mein Name ist Ria.";
     readingTextTranslation := VUndef;
     readingQuestions :=
       Some [ {| question := VStr "Wie ist der Name?";
                 options := VArr [VStr "Ria"; VStr "Tom"];
                 correctAnswer := VNum 0 0;
                 explanation := VUndef |} ];
     writingPrompt := VStr "Write a short greeting.";
     writingPoints := VUndef;
     listeningScenario := VUndef |}.

(** The minimal payload at the first call. *)
Definition first_time_lucky (_ : nat) : response := Resolved (Some doc_greetings).

(** What the form keeps while the user fills it in. *)
Definition form_ok (f : OnboardingForm) : Prop :=
  (step f = 1 \/ (step f = 2 \/ step f = 3) /\ name (data f) <> EmptyString)
  /\ targetLevel (data f) = B1
  /\ nativeLanguage (data f) = "Hindi"
  /\ onboardingComplete (data f) = false.

(** *** The score, counted from the answers *)

(** Five points for each question from index [i] on whose recorded option
    compares equal to the answer the payload names. *)
Fixpoint reading_points (same_number : nat -> value -> bool) (i : nat)
  (qs : list QuizQuestion) (answers : gmap nat nat) : nat :=
  match qs with
  | [] => 0
  | q :: rest =>
      match answers !! i with
      | Some optIdx => if same_number optIdx (correctAnswer q) then 5 else 0
      | None => 0
      end
      + reading_points same_number (S i) rest answers
  end.

(** Ten points once feedback on a text has come back. *)
Definition writing_points_of (s : Session) : nat :=
  if String.eqb (writingFeedback s) EmptyString then 0 else 10.

Definition score_ok (same_number : nat -> value -> bool) (s : Session) : Prop :=
  score s
  = reading_points same_number 0 (from_option questions_of [] (content s))
      (readingAnswers s)
    + writing_points_of s
  /\ (stage_rank (stage s) <= 3 -> writingFeedback s = EmptyString).

(** ** Proof automation *)

Ltac ascii_cases c :=
  let b0 := fresh in let b1 := fresh in let b2 := fresh in let b3 := fresh in
  let b4 := fresh in let b5 := fresh in let b6 := fresh in let b7 := fresh in
  destruct c as [b0 b1 b2 b3 b4 b5 b6 b7];
  destruct b0, b1, b2, b3, b4, b5, b6, b7.

Ltac split_shape :=
  repeat match goal with
         | H : (_ && _) = true |- _ => apply andb_true_iff in H as [? ?]
         end.

(** * Properties *)

(** ** Strings *)

Lemma json_start_solid c : json_start c = true -> is_ws c = false.
Proof. ascii_cases c; vm_compute; congruence. Qed.

Lemma json_start_not_fence c s :
  json_start c = true -> startsWith (String c s) fence = false.
Proof. ascii_cases c; vm_compute; congruence. Qed.

Lemma json_start_not_tag c s :
  json_start c = true -> String.prefix "json" (String c s) = false.
Proof. ascii_cases c; vm_compute; congruence. Qed.

Lemma ws_not_tag c s : is_ws c = true -> String.prefix "json" (String c s) = false.
Proof. ascii_cases c; vm_compute; congruence. Qed.

Lemma all_ws_skip s : all_ws s = true -> skip_ws s = EmptyString.
Proof. unfold all_ws. intros H. now apply String.eqb_eq in H. Qed.

Lemma skip_ws_app_ws w s : all_ws w = true -> skip_ws (w ++ s) = skip_ws s.
Proof.
  induction w as [|c w IH]; simpl; [reflexivity|].
  unfold all_ws. simpl. destruct (is_ws c); [exact IH | discriminate].
Qed.

Lemma skip_ws_app_solid s t c r :
  skip_ws s = String c r -> skip_ws (s ++ t) = String c r ++ t.
Proof.
  induction s as [|a s IH]; simpl; [discriminate|].
  destruct (is_ws a); [exact IH|]. intros H. now rewrite <- H.
Qed.

Lemma skip_ws_head_solid s c r : skip_ws s = String c r -> is_ws c = false.
Proof.
  induction s as [|a s IH]; simpl; [discriminate|].
  destruct (is_ws a) eqn:Ha; [exact IH|]. intros H. now inversion H; subst.
Qed.

Lemma trimEnd_head_solid c r :
  is_ws c = false -> exists r', trimEnd (String c r) = String c r'.
Proof.
  intros Hc. simpl. destruct (trimEnd r); rewrite ?Hc; eauto.
Qed.

Lemma trimEnd_app_solid s t c r :
  trimEnd t = String c r -> trimEnd (s ++ t) = s ++ String c r.
Proof.
  intros Ht. induction s as [|a s IH]; simpl; [exact Ht|].
  rewrite IH. now destruct s.
Qed.

Lemma trimEnd_blank s : all_ws s = true -> trimEnd s = EmptyString.
Proof.
  induction s as [|a s IH]; simpl; [reflexivity|].
  unfold all_ws. simpl. destruct (is_ws a); [|discriminate].
  intros H. now rewrite (IH H).
Qed.

Lemma trimEnd_cons_solid a s :
  all_ws s = false -> trimEnd (String a s) = String a (trimEnd s).
Proof.
  intros Hs. simpl. destruct (trimEnd s) eqn:E; [|reflexivity].
  exfalso. revert Hs E. clear. induction s as [|b s IH]; unfold all_ws; simpl.
  - discriminate.
  - destruct (trimEnd s) eqn:E.
    + destruct (is_ws b); [|discriminate]. intros H _. now apply IH.
    + discriminate.
Qed.

Lemma length_append (s t : string) :
  String.length (s ++ t) = String.length s + String.length t.
Proof. induction s as [|a s IH]; simpl; [reflexivity | now rewrite IH]. Qed.

Lemma longer_than_fence c s w :
  String.eqb (String c (s ++ w ++ fence)) fence = false.
Proof.
  apply String.eqb_neq. intros H. apply (f_equal String.length) in H.
  simpl in H. rewrite !length_append in H. simpl in H. lia.
Qed.

Lemma replace_trailing_eq lit s :
  replace_trailing lit s =
  if String.eqb (skip_ws s) lit then EmptyString
  else match s with
       | EmptyString => EmptyString
       | String c rest => String c (replace_trailing lit rest)
       end.
Proof. destruct s; reflexivity. Qed.

(** Removing a closing fence and the white space before it leaves the text
    with its trailing white space trimmed. *)
Lemma replace_trailing_fence s w :
  all_ws w = true -> replace_trailing fence (s ++ w ++ fence) = trimEnd s.
Proof.
  intros Hw. induction s as [|a s IH].
  - change (EmptyString ++ w ++ fence) with (w ++ fence).
    rewrite replace_trailing_eq, (skip_ws_app_ws w fence Hw). reflexivity.
  - change (String a s ++ w ++ fence) with (String a (s ++ w ++ fence)).
    rewrite replace_trailing_eq. cbn [skip_ws].
    destruct (is_ws a) eqn:Ha.
    + destruct (all_ws s) eqn:Hs.
      * rewrite (skip_ws_app_ws s _ Hs), (skip_ws_app_ws w _ Hw).
        cbn [skip_ws]. simpl. rewrite (trimEnd_blank s Hs), Ha. reflexivity.
      * rewrite (trimEnd_cons_solid a s Hs).
        unfold all_ws in Hs. destruct (skip_ws s) as [|c r] eqn:E; [discriminate|].
        rewrite (skip_ws_app_solid s _ c r E).
        change (String c r ++ w ++ fence) with (String c (r ++ w ++ fence)).
        rewrite longer_than_fence, IH. reflexivity.
    + rewrite longer_than_fence, IH. simpl.
      destruct (trimEnd s); rewrite ?Ha; reflexivity.
Qed.

Lemma json_start_not_json_fence c s :
  json_start c = true -> startsWith (String c s) json_fence = false.
Proof. ascii_cases c; vm_compute; congruence. Qed.

Lemma prefix_empty s : String.prefix EmptyString s = true.
Proof. now destruct s. Qed.

Lemma append_assoc (a b c : string) : (a ++ b) ++ c = a ++ b ++ c.
Proof.
  induction a as [|x a IH]; [reflexivity|].
  change (String x ((a ++ b) ++ c) = String x (a ++ b ++ c)). now rewrite IH.
Qed.

Lemma trimEnd_closing_fence s : trimEnd (s ++ fence) = s ++ fence.
Proof. now apply trimEnd_app_solid. Qed.

Lemma not_tag_after_ws s c r :
  skip_ws s = String c r -> json_start c = true -> String.prefix "json" s = false.
Proof.
  destruct s as [|a s]; [discriminate|]. simpl skip_ws.
  destruct (is_ws a) eqn:Ha.
  - intros _ _. now apply ws_not_tag.
  - intros H Hc. inversion H; subst. now apply json_start_not_tag.
Qed.

(** A text that is not fenced is only trimmed. *)
Lemma cleanText_bare doc : json_document doc = true -> cleanText doc = trim doc.
Proof.
  unfold json_document, cleanText, trim.
  destruct (skip_ws doc) as [|c r] eqn:E; [discriminate|]. intros Hc.
  destruct (trimEnd_head_solid c r (json_start_solid c Hc)) as [r' ->].
  now rewrite json_start_not_json_fence, json_start_not_fence.
Qed.

(** A fenced text, with the tag [json] or with none, is cleaned to the
    trimmed document between the fences. *)
Lemma cleanText_fenced tag w1 doc w2 :
  tag = "json" \/ tag = EmptyString ->
  all_ws w1 = true -> all_ws w2 = true -> json_document doc = true ->
  cleanText (fence ++ tag ++ w1 ++ doc ++ w2 ++ fence) = trim doc.
Proof.
  intros Htag Hw1 Hw2. unfold json_document.
  destruct (skip_ws doc) as [|c r] eqn:E; [discriminate|]. intros Hc.
  assert (Hrest : skip_ws (w1 ++ doc ++ w2 ++ fence) = String c r ++ w2 ++ fence).
  { rewrite (skip_ws_app_ws w1 _ Hw1). now apply skip_ws_app_solid. }
  assert (Htrim : trim (fence ++ tag ++ w1 ++ doc ++ w2 ++ fence)
                  = fence ++ tag ++ w1 ++ doc ++ w2 ++ fence).
  { unfold trim. replace (skip_ws (fence ++ tag ++ w1 ++ doc ++ w2 ++ fence))
      with (fence ++ tag ++ w1 ++ doc ++ w2 ++ fence) by reflexivity.
    rewrite <- !append_assoc. apply trimEnd_closing_fence. }
  unfold cleanText. rewrite Htrim. unfold trim. rewrite E.
  destruct Htag as [-> | ->].
  - replace (startsWith (fence ++ "json" ++ w1 ++ doc ++ w2 ++ fence) json_fence)
      with (String.prefix EmptyString (w1 ++ doc ++ w2 ++ fence)) by reflexivity.
    rewrite prefix_empty. unfold replace_leading.
    replace (startsWith (fence ++ "json" ++ w1 ++ doc ++ w2 ++ fence) json_fence)
      with (String.prefix EmptyString (w1 ++ doc ++ w2 ++ fence)) by reflexivity.
    rewrite prefix_empty.
    change (drop_chars (String.length json_fence)
              (fence ++ "json" ++ w1 ++ doc ++ w2 ++ fence))
      with (w1 ++ doc ++ w2 ++ fence).
    rewrite Hrest. now apply replace_trailing_fence.
  - change (EmptyString ++ w1 ++ doc ++ w2 ++ fence) with (w1 ++ doc ++ w2 ++ fence).
    replace (startsWith (fence ++ w1 ++ doc ++ w2 ++ fence) json_fence)
      with (String.prefix "json" (w1 ++ doc ++ w2 ++ fence)) by reflexivity.
    rewrite (not_tag_after_ws _ _ _ Hrest Hc).
    unfold replace_leading.
    replace (startsWith (fence ++ w1 ++ doc ++ w2 ++ fence) fence)
      with (String.prefix EmptyString (w1 ++ doc ++ w2 ++ fence)) by reflexivity.
    rewrite prefix_empty.
    change (drop_chars (String.length fence) (fence ++ w1 ++ doc ++ w2 ++ fence))
      with (w1 ++ doc ++ w2 ++ fence).
    rewrite Hrest. now apply replace_trailing_fence.
Qed.

(** ** The response parser *)

(** C8.  A response text that wraps a JSON document in a fenced code block,
    tagged [json] or untagged, with any white space between the fences and
    the document, parses to exactly what the bare document parses to,
    whatever [JSON.parse] does with the cleaned text; in particular the
    fenced [{"t":"x"}] of the specification parses as the bare one does. *)
Theorem fence_stripping_equivalence (JSON_parse : string -> result value) :
  (forall tag w1 doc w2,
      tag = "json" \/ tag = EmptyString ->
      all_ws w1 = true -> all_ws w2 = true -> json_document doc = true ->
      parseResponse JSON_parse (fence ++ tag ++ w1 ++ doc ++ w2 ++ fence)
      = parseResponse JSON_parse doc)
  /\ parseResponse JSON_parse (json_fence ++ newline ++ doc_tx ++ newline ++ fence)
     = parseResponse JSON_parse doc_tx.
Proof.
  split.
  - intros tag w1 doc w2 Htag Hw1 Hw2 Hdoc. unfold parseResponse.
    now rewrite cleanText_fenced, cleanText_bare.
  - reflexivity.
Qed.

(** The untagged fence around [{"t":"x"}], and what the sample parser
    reads from it. *)
Lemma fence_stripping_equivalence_witness :
  parseResponse JSON_parse_sample (fence ++ EmptyString ++ newline ++ doc_tx ++ newline ++ fence)
  = parseResponse JSON_parse_sample doc_tx
  /\ parseResponse JSON_parse_sample doc_tx = Ok (VObj [("t", VStr "x")]).
Proof.
  split.
  - apply (proj1 (fence_stripping_equivalence JSON_parse_sample));
      [right; reflexivity | reflexivity | reflexivity | reflexivity].
  - reflexivity.
Defined.

(** ** The content validator *)

Lemma freq_get_set_same wordFreq w e :
  w <> "__proto__" -> freq_get (freq_set wordFreq w e) w = e.
Proof.
  intros Hw. unfold freq_get, freq_set.
  apply String.eqb_neq in Hw. rewrite Hw. now rewrite lookup_insert_eq.
Qed.

Lemma freq_get_set_other wordFreq h w e :
  h <> w -> freq_get (freq_set wordFreq h e) w = freq_get wordFreq w.
Proof.
  intros Hne. unfold freq_get, freq_set.
  destruct (String.eqb h "__proto__"); [reflexivity|].
  now rewrite lookup_insert_ne.
Qed.

Lemma freq_get_empty w : ordinary w -> freq_get ∅ w = Undefined.
Proof.
  intros [Hc Hp]. unfold freq_get.
  apply String.eqb_neq in Hc, Hp. now rewrite Hp, lookup_empty, Hc.
Qed.

Lemma occurrences_head w rest : occurrences w (w :: rest) = S (occurrences w rest).
Proof. unfold occurrences. now rewrite count_occ_cons_eq. Qed.

Lemma occurrences_other h w rest :
  h <> w -> occurrences w (h :: rest) = occurrences w rest.
Proof. intros Hne. unfold occurrences. now rewrite count_occ_cons_neq. Qed.

(** An ordinary long word whose count reaches nine stops the loop. *)
Lemma repetition_detected_from words : forall wordFreq w,
  (3 < String.length w)%nat -> ordinary w -> tidy wordFreq w ->
  counted wordFreq w <= 8 ->
  9 <= counted wordFreq w + occurrences w words ->
  repetition_detected words wordFreq = true.
Proof.
  induction words as [|h rest IH]; intros wordFreq w Hlen Hord Htidy Hle Hnine.
  - unfold occurrences in Hnine. simpl in Hnine. lia.
  - cbn [repetition_detected].
    destruct (3 <? String.length h)%nat eqn:Hh.
    + set (wordFreq' := freq_set wordFreq h (plus_one (freq_get wordFreq h))).
      destruct (exceeds_8 (freq_get wordFreq' h)) eqn:Hex; [reflexivity|].
      destruct (string_dec h w) as [-> | Hne].
      * assert (Hget : freq_get wordFreq' w = plus_one (freq_get wordFreq w))
          by (apply freq_get_set_same, Hord).
        rewrite Hget in Hex. rewrite occurrences_head in Hnine.
        apply (IH wordFreq' w Hlen Hord).
        -- right. rewrite Hget. destruct Htidy as [-> | [n ->]]; simpl; eauto.
        -- unfold counted in *. rewrite Hget.
           destruct Htidy as [E | [n E]]; rewrite E in *; simpl in *.
           ++ lia.
           ++ apply Nat.ltb_ge in Hex. lia.
        -- unfold counted in *. rewrite Hget.
           destruct Htidy as [E | [n E]]; rewrite E in *; simpl in *; lia.
      * assert (Hget : freq_get wordFreq' w = freq_get wordFreq w)
          by (now apply freq_get_set_other).
        rewrite (occurrences_other h w rest Hne) in Hnine.
        apply (IH wordFreq' w Hlen Hord).
        -- unfold tidy. now rewrite Hget.
        -- unfold counted. now rewrite Hget.
        -- unfold counted in *. now rewrite Hget.
    + assert (Hne : h <> w).
      { intros ->. apply Nat.ltb_ge in Hh. lia. }
      rewrite (occurrences_other h w rest Hne) in Hnine.
      now apply (IH wordFreq w).
Qed.

Lemma counted_after_word wordFreq h :
  let wordFreq' := freq_set wordFreq h (plus_one (freq_get wordFreq h)) in
  counted wordFreq' h <= S (counted wordFreq h)
  /\ (exceeds_8 (freq_get wordFreq' h) = true -> 8 <= counted wordFreq h).
Proof.
  simpl. unfold counted.
  destruct (string_dec h "__proto__") as [-> | Hp].
  - split; [cbn; lia | cbn; discriminate].
  - rewrite (freq_get_set_same _ _ _ Hp).
    destruct (freq_get wordFreq h) as [|n|s| |]; simpl;
      try (split; [lia | discriminate]).
    + split; [lia|]. intros H. apply Nat.ltb_lt in H. lia.
    + destruct (String.eqb s EmptyString); simpl; (split; [lia | discriminate]).
Qed.

(** While no long word occurs more than eight times the loop runs to its
    end. *)
Lemma repetition_not_detected words : forall wordFreq,
  (forall w, (3 < String.length w)%nat ->
             counted wordFreq w + occurrences w words <= 8) ->
  repetition_detected words wordFreq = false.
Proof.
  induction words as [|h rest IH]; intros wordFreq Hall; [reflexivity|].
  cbn [repetition_detected].
  destruct (3 <? String.length h)%nat eqn:Hh.
  - apply Nat.ltb_lt in Hh.
    pose proof (counted_after_word wordFreq h) as [Hstep Hex]. cbn zeta in *.
    pose proof (Hall h Hh) as Hhd. rewrite occurrences_head in Hhd.
    destruct (exceeds_8 _) eqn:E; [specialize (Hex eq_refl); lia|].
    apply IH. intros w Hw.
    destruct (string_dec h w) as [<- | Hne].
    + lia.
    + pose proof (Hall w Hw) as Hw8. rewrite (occurrences_other h w rest Hne) in Hw8.
      unfold counted in *. now rewrite (freq_get_set_other _ _ _ _ Hne).
  - apply IH. intros w Hw. specialize (Hall w Hw).
    destruct (string_dec h w) as [<- | Hne].
    + apply Nat.ltb_ge in Hh. lia.
    + now rewrite (occurrences_other h w rest Hne) in Hall.
Qed.

Lemma validateResponse_object p lvl :
  validateResponse (VObj p) lvl =
  let* text_ok := check_text (default VUndef (own_prop p "txt")) lvl in
  if negb text_ok then Ok false
  else let voc := default VUndef (own_prop p "voc") in
       if negb (truthy voc) then Ok false
       else let* len := get voc "length" in
            if strict_eq_zero len then Ok false else Ok true.
Proof. reflexivity. Qed.

Lemma get_string_object raw key s :
  get raw key = Ok (VStr s) -> exists p, raw = VObj p.
Proof.
  destruct raw; simpl; try discriminate; eauto;
    destruct (String.eqb key "length"); discriminate.
Qed.

Lemma check_text_string s lvl : exists b, check_text (VStr s) lvl = Ok b.
Proof.
  unfold check_text. destruct (truthy (VStr s)); [|eauto].
  destruct (_ <? _)%nat; [eauto|]. destruct (repetition_detected _ _); eauto.
Qed.

Lemma check_text_too_long s lvl :
  maxWords lvl < length (split_ws s) -> check_text (VStr s) lvl = Ok false.
Proof.
  intros Hlong. unfold check_text.
  destruct (truthy (VStr s)) eqn:Ht.
  - apply Nat.ltb_lt in Hlong. now rewrite Hlong.
  - destruct s; [|discriminate]. destruct lvl; simpl in Hlong; lia.
Qed.

Lemma shape_txt p :
  payload_shape (VObj p) = true ->
  own_prop p "txt" = None \/ exists s, own_prop p "txt" = Some (VStr s).
Proof.
  unfold payload_shape. intros H. split_shape.
  match goal with
  | Ht : field_is is_string p "txt" = true |- _ =>
      unfold field_is in Ht; destruct (own_prop p "txt") as [[]|];
      try discriminate; eauto
  end.
Qed.

(** Within the word ceiling, a reading text that repeats an ordinary word
    of more than three characters nine times or more is rejected. *)
Lemma validateResponse_rejects_repetition raw lvl s w :
  get raw "txt" = Ok (VStr s) ->
  (3 < String.length w)%nat -> ordinary w ->
  9 <= occurrences w (split_ws (toLowerCase s)) ->
  validateResponse raw lvl = Ok false.
Proof.
  intros Htxt Hlen Hord Hnine.
  destruct (get_string_object _ _ _ Htxt) as [p ->].
  rewrite validateResponse_object. simpl in Htxt.
  destruct (own_prop p "txt") as [v|]; [|discriminate].
  simpl in Htxt. injection Htxt as ->. simpl default.
  assert (Hs : truthy (VStr s) = true).
  { destruct s; [|reflexivity]. exfalso.
    destruct w; [simpl in Hlen; lia|]. cbn in Hnine. lia. }
  unfold check_text. rewrite Hs.
  destruct (_ <? _)%nat; [reflexivity|].
  rewrite (repetition_detected_from _ ∅ w Hlen Hord); [reflexivity | | | ].
  - left. now apply freq_get_empty.
  - unfold counted. rewrite (freq_get_empty w Hord). lia.
  - unfold counted. rewrite (freq_get_empty w Hord). lia.
Qed.

(** A payload with vocabulary whose reading text is within the ceiling and
    repeats no word of more than three characters more than eight times is
    accepted. *)
Lemma validateResponse_accepts_within_limits raw lvl s card cards :
  get raw "txt" = Ok (VStr s) ->
  length (split_ws s) <= maxWords lvl ->
  (forall w, (3 < String.length w)%nat ->
             occurrences w (split_ws (toLowerCase s)) <= 8) ->
  get raw "voc" = Ok (VArr (card :: cards)) ->
  validateResponse raw lvl = Ok true.
Proof.
  intros Htxt Hcount Hrep Hvoc.
  destruct (get_string_object _ _ _ Htxt) as [p ->].
  rewrite validateResponse_object. simpl in Htxt, Hvoc.
  injection Htxt as ->. injection Hvoc as ->.
  unfold check_text. destruct (truthy (VStr s)); [|reflexivity].
  apply Nat.ltb_ge in Hcount. rewrite Hcount.
  rewrite repetition_not_detected; [reflexivity|].
  intros w Hw. specialize (Hrep w Hw).
  assert (counted ∅ w = 0); [|lia].
  unfold counted, freq_get. destruct (String.eqb w "__proto__"); [reflexivity|].
  rewrite lookup_empty. now destruct (String.eqb w "constructor").
Qed.

(** C5.  The reading text made of the word [constructor] nine times holds
    a word of eleven characters occurring nine times, and the validator
    accepts the payload at every level: the first read of that key in the
    frequency table finds the function inherited from [Object.prototype],
    the sum becomes a text, and the comparison with 8 is never true.  At
    the boundary an ordinary word is rejected at nine occurrences and
    accepted at eight. *)
Theorem repetition_constructor_accepted :
  occurrences "constructor" (split_ws (toLowerCase constructor_text)) = 9
  /\ (forall lvl, validateResponse constructor_payload lvl = Ok true)
  /\ (forall lvl,
        validateResponse
          (VObj [("txt", VStr (repeat_word 9 "Haus")); ("voc", VArr [hallo_card])])
          lvl = Ok false)
  /\ (forall lvl,
        validateResponse
          (VObj [("txt", VStr (repeat_word 8 "Haus")); ("voc", VArr [hallo_card])])
          lvl = Ok true).
Proof.
  repeat split; try (intros lvl; destruct lvl); vm_compute; reflexivity.
Qed.

(** C6.  A payload whose [voc] is undefined or the empty array is rejected
    at every level, whatever its other fields hold. *)
Theorem validateResponse_requires_vocabulary raw lvl :
  payload_shape raw = true ->
  get raw "voc" = Ok VUndef \/ get raw "voc" = Ok (VArr []) ->
  validateResponse raw lvl = Ok false.
Proof.
  intros Hshape Hvoc.
  destruct raw as [| | | | | |p]; try discriminate.
  rewrite validateResponse_object.
  assert (Htext : exists b, check_text (default VUndef (own_prop p "txt")) lvl = Ok b).
  { destruct (shape_txt p Hshape) as [-> | [s ->]]; simpl default.
    - now exists true.
    - apply check_text_string. }
  destruct Htext as [b ->]. simpl bind.
  destruct b; [|reflexivity]. simpl negb. cbv zeta.
  simpl in Hvoc. destruct Hvoc as [H | H]; injection H as ->; reflexivity.
Qed.

Lemma validateResponse_requires_vocabulary_witness :
  validateResponse (VObj [("t", VStr "Greetings"); ("voc", VArr [])]) A2 = Ok false.
Proof.
  apply validateResponse_requires_vocabulary; [reflexivity | right; reflexivity].
Defined.

(** C7.  The word ceiling depends on the level and is strictly lowest at
    A0; a reading text with more white-space separated words than the
    ceiling of the level is rejected; and a payload of 61 words is
    rejected at A0 while A1, A2 and B1 accept it. *)
Theorem word_ceiling_by_level :
  (forall lvl, lvl <> A0 -> maxWords A0 < maxWords lvl)
  /\ (forall raw lvl s,
        get raw "txt" = Ok (VStr s) ->
        maxWords lvl < length (split_ws s) ->
        validateResponse raw lvl = Ok false)
  /\ (exists raw s,
        get raw "txt" = Ok (VStr s) /\ length (split_ws s) = 61
        /\ validateResponse raw A0 = Ok false
        /\ validateResponse raw A1 = Ok true
        /\ validateResponse raw A2 = Ok true
        /\ validateResponse raw B1 = Ok true).
Proof.
  split; [|split].
  - intros [] H; simpl; try lia. congruence.
  - intros raw lvl s Htxt Hlong.
    destruct (get_string_object _ _ _ Htxt) as [p ->].
    rewrite validateResponse_object. simpl in Htxt. injection Htxt as ->.
    now rewrite check_text_too_long.
  - exists (VObj [("txt", VStr (repeat_word 61 "ja")); ("voc", VArr [hallo_card])]).
    exists (repeat_word 61 "ja").
    repeat split; vm_compute; reflexivity.
Qed.

Lemma word_ceiling_by_level_witness :
  validateResponse (VObj [("txt", VStr (repeat_word 61 "ja"))]) A0 = Ok false.
Proof.
  apply (proj1 (proj2 word_ceiling_by_level)) with (s := repeat_word 61 "ja");
    [reflexivity | vm_compute; lia].
Defined.

(** ** The domain mapper *)

Lemma map_result_total {A B : Type} (f : A -> result B) (ok : A -> bool) l :
  (forall x, ok x = true -> exists y, f x = Ok y) ->
  forallb ok l = true -> exists ys, map_result f l = Ok ys.
Proof.
  intros Hf. induction l as [|x l IH]; simpl; [eauto|].
  intros H. apply andb_true_iff in H as [Hx Hl].
  destruct (Hf x Hx) as [y ->]. destruct (IH Hl) as [ys ->]. simpl. eauto.
Qed.

Lemma array_map_field {B : Type} (f : value -> result B) (ok : value -> bool) p key :
  (forall v, ok v = true -> exists y, f v = Ok y) ->
  field_is (is_array_of ok) p key = true ->
  exists ys, array_map (or_else (default VUndef (own_prop p key)) (VArr [])) f = Ok ys.
Proof.
  intros Hf. unfold field_is. destruct (own_prop p key) as [v|]; simpl.
  - destruct v; try discriminate. simpl. now apply map_result_total.
  - intros _. now exists [].
Qed.

Lemma mapVocabularyCard_total v :
  vocabulary_item_shape v = true -> exists card, mapVocabularyCard v = Ok card.
Proof. destruct v; try discriminate. intros _. unfold mapVocabularyCard. simpl. eauto. Qed.

Lemma mapQuizQuestion_total v :
  question_shape v = true -> exists q, mapQuizQuestion v = Ok q.
Proof. destruct v; try discriminate. intros _. unfold mapQuizQuestion. simpl. eauto. Qed.

Lemma mapRawToLesson_total raw :
  payload_shape raw = true -> exists lesson, mapRawToLesson raw = Ok lesson.
Proof.
  destruct raw as [| | | | | |p]; try discriminate.
  unfold payload_shape. intros H. split_shape.
  unfold mapRawToLesson. simpl get. cbn [bind].
  destruct (array_map_field mapVocabularyCard vocabulary_item_shape p "voc"
              mapVocabularyCard_total) as [cards ->]; [assumption|].
  cbn [bind].
  destruct (array_map_field mapQuizQuestion question_shape p "q"
              mapQuizQuestion_total) as [qs ->]; [assumption|].
  cbn [bind]. eauto.
Qed.

(** Outside the schema the mapper can throw: a [voc] that is a number has
    no [map] to call. *)
Remark mapRawToLesson_outside_schema :
  mapRawToLesson (VObj [("voc", VNum 5 0)]) = Throw TypeError.
Proof. reflexivity. Qed.

(** C4, as the code has it.  The mapper returns a lesson for every payload
    of the schema's shape.  For the minimal payload the topic, the level
    and the one vocabulary card are renamed field by field; the reading
    text, its translation, the writing prompt, the writing points and the
    listening scenario are undefined; the reading questions are the empty
    list. *)
Theorem mapRawToLesson_minimal_payload :
  (forall raw, payload_shape raw = true ->
               exists lesson, mapRawToLesson raw = Ok lesson)
  /\ mapRawToLesson greetings_payload
     = Ok {| topic := VStr "Greetings";
             level := VStr "A1";
             vocabulary := [ {| german := VStr "Hallo";
                                englishExplanation := VStr "Hello";
                                hindiTranslation := VStr "Namaste";
                                exampleSentence := VStr "Hallo!" |} ];
             readingText := VUndef;
             readingTextTranslation := VUndef;
             readingQuestions := Some [];
             writingPrompt := VUndef;
             writingPoints := VUndef;
             listeningScenario := VUndef |}.
Proof. split; [exact mapRawToLesson_total | reflexivity]. Qed.

Lemma mapRawToLesson_minimal_payload_witness :
  exists lesson, mapRawToLesson greetings_payload = Ok lesson.
Proof. apply (proj1 mapRawToLesson_minimal_payload). reflexivity. Defined.

(** C4, as the claim states it, fails on [readingQuestions]: for the
    minimal payload that field is the empty list, not an absent one. *)
Lemma minimal_payload_has_reading_questions :
  exists lesson,
    mapRawToLesson greetings_payload = Ok lesson
    /\ readingQuestions lesson = Some []
    /\ readingQuestions lesson <> None.
Proof. eexists. split; [reflexivity|]. split; [reflexivity | discriminate]. Qed.

(** ** Writing feedback *)

(** C9.  [evaluateWriting] completes with a string whatever the model call
    does: the text of the response when it is not empty, one fixed string
    when the response has no text, another fixed string when the call
    throws. *)
Theorem evaluateWriting_returns_string :
  (forall r, exists s, evaluateWriting r = Ok s)
  /\ (forall text, text <> EmptyString ->
                   evaluateWriting (Resolved (Some text)) = Ok text)
  /\ evaluateWriting Rejected = Ok feedback_error
  /\ evaluateWriting (Resolved None) = Ok feedback_missing
  /\ evaluateWriting (Resolved (Some EmptyString)) = Ok feedback_missing.
Proof.
  repeat split.
  - intros [|text]; simpl; eauto.
  - intros text Hne. destruct text; [congruence | reflexivity].
Qed.

Lemma evaluateWriting_returns_string_witness :
  evaluateWriting (Resolved (Some "Good A2")) = Ok "Good A2".
Proof.
  apply (proj1 (proj2 evaluateWriting_returns_string)). discriminate.
Defined.

(** ** The retry loop *)

Lemma shape_voc p :
  payload_shape (VObj p) = true ->
  own_prop p "voc" = None \/ exists items, own_prop p "voc" = Some (VArr items).
Proof.
  unfold payload_shape. intros H. split_shape.
  match goal with
  | Hv : field_is (is_array_of vocabulary_item_shape) p "voc" = true |- _ =>
      unfold field_is in Hv; destruct (own_prop p "voc") as [[]|];
      try discriminate; eauto
  end.
Qed.

Lemma validateResponse_total raw lvl :
  payload_shape raw = true -> exists b, validateResponse raw lvl = Ok b.
Proof.
  destruct raw as [| | | | | |p]; try discriminate. intros Hshape.
  rewrite validateResponse_object.
  assert (Htext : exists b, check_text (default VUndef (own_prop p "txt")) lvl = Ok b).
  { destruct (shape_txt p Hshape) as [-> | [s ->]]; simpl default.
    - now exists true.
    - apply check_text_string. }
  destruct Htext as [b ->]. cbn [bind].
  destruct b; cbn [negb]; [|eauto]. cbv zeta.
  destruct (shape_voc p Hshape) as [-> | [items ->]]; simpl; [eauto|].
  destruct (num_is_zero _ _); eauto.
Qed.

Section Retry.

Variable JSON_parse : string -> result value.

(** An attempt whose text parses goes on to validation and mapping. *)
Lemma attempt_body_parsed lvl attempt r raw :
  parsed JSON_parse r raw ->
  attempt_body JSON_parse lvl attempt r =
  let* valid := validateResponse raw lvl in
  if valid
  then let* lesson := mapRawToLesson raw in Ok (Some lesson)
  else if (attempt =? 2)%nat
       then let* lesson := mapRawToLesson raw in Ok (Some lesson)
       else Ok None.
Proof.
  intros (text & -> & Hne & Hparse). unfold attempt_body. simpl.
  destruct text; [congruence|]. simpl. rewrite Hparse. reflexivity.
Qed.

Lemma attempt_body_rejected lvl attempt r raw :
  parsed JSON_parse r raw -> validateResponse raw lvl = Ok false ->
  attempt_body JSON_parse lvl attempt r =
  if (attempt =? 2)%nat
  then let* lesson := mapRawToLesson raw in Ok (Some lesson)
  else Ok None.
Proof. intros Hp Hv. now rewrite (attempt_body_parsed _ _ _ _ Hp), Hv. Qed.

Lemma attempt_body_valid lvl attempt r raw :
  parsed JSON_parse r raw -> payload_shape raw = true -> validateResponse raw lvl = Ok true ->
  exists lesson,
    mapRawToLesson raw = Ok lesson /\ attempt_body JSON_parse lvl attempt r = Ok (Some lesson).
Proof.
  intros Hp Hs Hv. destruct (mapRawToLesson_total raw Hs) as [lesson Hm].
  exists lesson. split; [exact Hm|].
  now rewrite (attempt_body_parsed _ _ _ _ Hp), Hv, Hm.
Qed.

Lemma attempt_body_last lvl r raw :
  parsed JSON_parse r raw -> payload_shape raw = true ->
  exists lesson, attempt_body JSON_parse lvl 2 r = Ok (Some lesson).
Proof.
  intros Hp Hs. destruct (mapRawToLesson_total raw Hs) as [lesson Hm].
  destruct (validateResponse_total raw lvl Hs) as [b Hv].
  exists lesson. rewrite (attempt_body_parsed _ _ _ _ Hp), Hv, Hm.
  now destruct b.
Qed.

Lemma retry_loop_calls lvl model remaining : forall attempt tr,
  calls (snd (retry_loop JSON_parse lvl model remaining attempt tr))
  <= calls tr + remaining.
Proof.
  induction remaining as [|k IH]; intros attempt tr; simpl; [lia|].
  destruct (attempt_body JSON_parse lvl attempt (model attempt)) as [[lesson|]|e].
  - simpl. lia.
  - etransitivity; [apply IH|]. simpl. lia.
  - destruct (attempt =? 2)%nat.
    + simpl. lia.
    + etransitivity; [apply IH|]. simpl. lia.
Qed.

(** C3.  One invocation makes no more than three model calls; and when the
    first two calls are rejected and the third returns a payload that
    passes validation, it makes exactly three calls, waits 1000 ms and
    2000 ms, and returns the mapped payload. *)
Theorem generateLesson_retry_budget :
  (forall lvl model, calls (snd (generateLesson JSON_parse lvl model)) <= 3)
  /\ (forall lvl model raw,
        model 0 = Rejected -> model 1 = Rejected ->
        parsed JSON_parse (model 2) raw -> payload_shape raw = true ->
        validateResponse raw lvl = Ok true ->
        exists lesson,
          mapRawToLesson raw = Ok lesson
          /\ generateLesson JSON_parse lvl model
             = (Some lesson, {| calls := 3; delays := [1000; 2000] |})).
Proof.
  split.
  - intros lvl model. apply (retry_loop_calls lvl model 3 0).
  - intros lvl model raw H0 H1 Hp Hs Hv.
    destruct (attempt_body_valid lvl 2 _ _ Hp Hs Hv) as (lesson & Hm & Hb).
    exists lesson. split; [exact Hm|].
    unfold generateLesson. cbn [retry_loop].
    rewrite H0. cbn [attempt_body Nat.eqb].
    rewrite H1. cbn [attempt_body Nat.eqb].
    rewrite Hb. reflexivity.
Qed.

(** What three rejections in a row lead to: the third payload goes to the
    mapper, and a [TypeError] there is caught at attempt 2. *)
Lemma generateLesson_after_three_rejections lvl model raw0 raw1 raw2 :
  parsed JSON_parse (model 0) raw0 -> validateResponse raw0 lvl = Ok false ->
  parsed JSON_parse (model 1) raw1 -> validateResponse raw1 lvl = Ok false ->
  parsed JSON_parse (model 2) raw2 -> validateResponse raw2 lvl = Ok false ->
  generateLesson JSON_parse lvl model
  = (match mapRawToLesson raw2 with
     | Ok lesson => Some lesson
     | Throw _ => None
     end, {| calls := 3; delays := [] |}).
Proof.
  intros Hp0 Hv0 Hp1 Hv1 Hp2 Hv2.
  unfold generateLesson. cbn [retry_loop].
  rewrite (attempt_body_rejected lvl 0 _ _ Hp0 Hv0). cbn [Nat.eqb].
  rewrite (attempt_body_rejected lvl 1 _ _ Hp1 Hv1). cbn [Nat.eqb].
  rewrite (attempt_body_rejected lvl 2 _ _ Hp2 Hv2). cbn [Nat.eqb].
  now destruct (mapRawToLesson raw2).
Qed.

(** C2.  When each of the three attempts returns a payload that the
    validator rejects, the mapped payload of the third attempt is
    returned, after three calls and without any delay. *)
Theorem generateLesson_degrades_on_rejection lvl model raw0 raw1 raw2 :
  parsed JSON_parse (model 0) raw0 -> validateResponse raw0 lvl = Ok false ->
  parsed JSON_parse (model 1) raw1 -> validateResponse raw1 lvl = Ok false ->
  parsed JSON_parse (model 2) raw2 -> validateResponse raw2 lvl = Ok false ->
  payload_shape raw2 = true ->
  exists lesson,
    mapRawToLesson raw2 = Ok lesson
    /\ generateLesson JSON_parse lvl model = (Some lesson, {| calls := 3; delays := [] |}).
Proof.
  intros Hp0 Hv0 Hp1 Hv1 Hp2 Hv2 Hs.
  destruct (mapRawToLesson_total raw2 Hs) as [lesson Hm].
  exists lesson. split; [exact Hm|].
  rewrite (generateLesson_after_three_rejections lvl model raw0 raw1 raw2)
    by assumption.
  now rewrite Hm.
Qed.

Lemma not_null_from_third lvl model tr lesson :
  attempt_body JSON_parse lvl 2 (model 2) = Ok (Some lesson) ->
  fst (retry_loop JSON_parse lvl model 1 2 tr) <> None.
Proof. intros H. cbn [retry_loop]. now rewrite H. Qed.

(** C1, as the code has it.  The result is a lesson whenever the third
    call returns a text that parses to a payload, and whenever any of the
    three calls returns a payload that passes validation; it is null when
    all three calls are rejected. *)
Theorem generateLesson_null_cases :
  (forall lvl model raw,
      parsed JSON_parse (model 2) raw -> payload_shape raw = true ->
      fst (generateLesson JSON_parse lvl model) <> None)
  /\ (forall lvl model i raw,
        i < 3 -> parsed JSON_parse (model i) raw -> payload_shape raw = true ->
        validateResponse raw lvl = Ok true ->
        fst (generateLesson JSON_parse lvl model) <> None)
  /\ (forall lvl model,
        (forall i, i < 3 -> model i = Rejected) ->
        generateLesson JSON_parse lvl model = (None, {| calls := 3; delays := [1000; 2000] |})).
Proof.
  split; [|split].
  - intros lvl model raw Hp Hs.
    destruct (attempt_body_last lvl _ _ Hp Hs) as [lesson Hb].
    unfold generateLesson. cbn [retry_loop].
    destruct (attempt_body JSON_parse lvl 0 (model 0)) as [[l0|]|e0]; [discriminate| |];
      cbn [Nat.eqb];
      (destruct (attempt_body JSON_parse lvl 1 (model 1)) as [[l1|]|e1]; [discriminate| |]);
      cbn [Nat.eqb]; rewrite Hb; discriminate.
  - intros lvl model i raw Hi Hp Hs Hv.
    unfold generateLesson. cbn [retry_loop].
    destruct (attempt_body JSON_parse lvl 0 (model 0)) as [[l0|]|e0] eqn:E0; [discriminate| |];
      cbn [Nat.eqb];
      (destruct (attempt_body JSON_parse lvl 1 (model 1)) as [[l1|]|e1] eqn:E1; [discriminate| |]);
      cbn [Nat.eqb];
      (destruct (attempt_body JSON_parse lvl 2 (model 2)) as [[l2|]|e2] eqn:E2; [discriminate| |]);
      exfalso;
      (destruct i as [|[|[|i]]];
       [ destruct (attempt_body_valid lvl 0 _ _ Hp Hs Hv) as (lesson & _ & Hb)
       | destruct (attempt_body_valid lvl 1 _ _ Hp Hs Hv) as (lesson & _ & Hb)
       | destruct (attempt_body_valid lvl 2 _ _ Hp Hs Hv) as (lesson & _ & Hb)
       | lia ]);
      congruence.
  - intros lvl model Hall.
    unfold generateLesson. cbn [retry_loop].
    rewrite (Hall 0), (Hall 1), (Hall 2) by lia. reflexivity.
Qed.

(** C10.  Provided [JSON.parse] reads the text of the empty object as the
    empty object, there are three model responses, each of which parses
    and is rejected by the validator, the last without any vocabulary, for
    which the result is a lesson whose vocabulary is the empty list. *)
Theorem generateLesson_empty_vocabulary lvl :
  JSON_parse doc_empty = Ok (VObj []) ->
  exists model,
    (forall i, i < 3 ->
       exists raw, parsed JSON_parse (model i) raw /\ validateResponse raw lvl = Ok false)
    /\ (exists raw, parsed JSON_parse (model 2) raw /\ get raw "voc" = Ok VUndef)
    /\ (exists lesson,
          fst (generateLesson JSON_parse lvl model) = Some lesson
          /\ vocabulary lesson = []).
Proof.
  intros Hparse.
  assert (Hp : parsed JSON_parse (Resolved (Some doc_empty)) (VObj [])).
  { exists doc_empty. repeat split; [discriminate | exact Hparse]. }
  exists (fun _ => Resolved (Some doc_empty)). split; [|split].
  - intros i _. exists (VObj []). split; [exact Hp | reflexivity].
  - exists (VObj []). split; [exact Hp | reflexivity].
  - unfold generateLesson. cbn [retry_loop].
    rewrite !(attempt_body_rejected lvl _ _ _ Hp eq_refl). cbn.
    eexists. split; reflexivity.
Qed.

End Retry.

(** *** Closed runs, with the sample parser *)

Lemma parsed_empty_object :
  parsed JSON_parse_sample (Resolved (Some doc_empty)) (VObj []).
Proof. exists doc_empty. repeat split. discriminate. Qed.

Lemma generateLesson_retry_budget_witness :
  exists lesson,
    mapRawToLesson greetings_payload = Ok lesson
    /\ generateLesson JSON_parse_sample A1 third_time_lucky
       = (Some lesson, {| calls := 3; delays := [1000; 2000] |}).
Proof.
  apply (proj2 (generateLesson_retry_budget JSON_parse_sample));
    try reflexivity.
  exists doc_greetings. repeat split. discriminate.
Defined.

Lemma generateLesson_degrades_on_rejection_witness :
  exists lesson,
    mapRawToLesson (VObj []) = Ok lesson
    /\ generateLesson JSON_parse_sample B1 always_empty_object
       = (Some lesson, {| calls := 3; delays := [] |}).
Proof.
  apply (generateLesson_degrades_on_rejection JSON_parse_sample B1
           always_empty_object (VObj []) (VObj []) (VObj []));
    try reflexivity; exact parsed_empty_object.
Defined.

Lemma generateLesson_null_cases_witness :
  fst (generateLesson JSON_parse_sample A0 always_empty_object) <> None
  /\ fst (generateLesson JSON_parse_sample A1 third_time_lucky) <> None
  /\ generateLesson JSON_parse_sample A2 (fun _ => Rejected)
     = (None, {| calls := 3; delays := [1000; 2000] |}).
Proof.
  destruct (generateLesson_null_cases JSON_parse_sample) as (Hlast & Hvalid & Hnull).
  split; [|split].
  - apply (Hlast A0 always_empty_object (VObj []));
      [exact parsed_empty_object | reflexivity].
  - apply (Hvalid A1 third_time_lucky 2 greetings_payload);
      [lia | | reflexivity | reflexivity].
    exists doc_greetings. repeat split. discriminate.
  - apply (Hnull A2 (fun _ => Rejected)). reflexivity.
Defined.

Lemma generateLesson_empty_vocabulary_witness :
  exists model,
    (forall i, i < 3 ->
       exists raw, parsed JSON_parse_sample (model i) raw
                   /\ validateResponse raw A1 = Ok false)
    /\ (exists raw, parsed JSON_parse_sample (model 2) raw
                    /\ get raw "voc" = Ok VUndef)
    /\ (exists lesson,
          fst (generateLesson JSON_parse_sample A1 model) = Some lesson
          /\ vocabulary lesson = []).
Proof. apply (generateLesson_empty_vocabulary JSON_parse_sample A1). reflexivity. Defined.

(** C1, as the claim states it, fails: the first attempt parses (to a
    payload the validator rejects), the other two calls are rejected, and
    the result is null. *)
Lemma parsed_attempt_then_null :
  parsed JSON_parse_sample (empty_object_then_rejected 0) (VObj [])
  /\ generateLesson JSON_parse_sample A1 empty_object_then_rejected
     = (None, {| calls := 3; delays := [2000] |}).
Proof. split; [exact parsed_empty_object | reflexivity]. Qed.

(** Null also comes without any error: three responses that carry no
    text leave the loop after three calls and no delay. *)
Remark no_text_then_null :
  generateLesson JSON_parse_sample A1 (fun _ => Resolved None)
  = (None, {| calls := 3; delays := [] |}).
Proof. reflexivity. Qed.

(** * Further properties of the service *)

Lemma get_not_nullish v key : is_nullish v = false -> get v key = Ok (field v key).
Proof.
  unfold field. destruct v; simpl; try discriminate; intros _; try reflexivity;
    now destruct (String.eqb key "length").
Qed.

Lemma get_nullish v key : is_nullish v = true -> get v key = Throw TypeError.
Proof. destruct v; simpl; try discriminate; reflexivity. Qed.

Lemma truthy_not_nullish v : truthy v = true -> is_nullish v = false.
Proof. destruct v; simpl; congruence. Qed.

Lemma map_result_Forall2 {A B : Type} (f : A -> result B) l : forall ys,
  map_result f l = Ok ys -> Forall2 (fun x y => f x = Ok y) l ys.
Proof.
  induction l as [|x l IH]; simpl; intros ys H.
  - injection H as <-. constructor.
  - destruct (f x) as [y|e] eqn:Hx; [|discriminate]. simpl in H.
    destruct (map_result f l) as [ys'|e]; [|discriminate]. simpl in H.
    injection H as <-. constructor; auto.
Qed.

Lemma map_result_throws {A B : Type} (f : A -> result B) (ok : A -> bool) l :
  (forall x, ok x = true -> exists y, f x = Ok y) ->
  (forall x, ok x = false -> f x = Throw TypeError) ->
  forallb ok l = false -> map_result f l = Throw TypeError.
Proof.
  intros Hok Hbad. induction l as [|x l IH]; simpl; [discriminate|].
  destruct (ok x) eqn:Hx; simpl.
  - intros Hl. destruct (Hok x Hx) as [y ->]. simpl. now rewrite (IH Hl).
  - intros _. now rewrite (Hbad x Hx).
Qed.

Lemma mapVocabularyCard_not_nullish v :
  negb (is_nullish v) = true -> exists card, mapVocabularyCard v = Ok card.
Proof.
  intros H. apply negb_true_iff in H. unfold mapVocabularyCard.
  rewrite !(get_not_nullish v _ H). simpl. eauto.
Qed.

Lemma mapQuizQuestion_not_nullish v :
  negb (is_nullish v) = true -> exists q, mapQuizQuestion v = Ok q.
Proof.
  intros H. apply negb_true_iff in H. unfold mapQuizQuestion.
  rewrite !(get_not_nullish v _ H). simpl. eauto.
Qed.

Lemma mapVocabularyCard_nullish v :
  negb (is_nullish v) = false -> mapVocabularyCard v = Throw TypeError.
Proof.
  intros H. apply negb_false_iff in H. unfold mapVocabularyCard.
  now rewrite (get_nullish v _ H).
Qed.

Lemma mapQuizQuestion_nullish v :
  negb (is_nullish v) = false -> mapQuizQuestion v = Throw TypeError.
Proof.
  intros H. apply negb_false_iff in H. unfold mapQuizQuestion.
  now rewrite (get_nullish v _ H).
Qed.

Lemma array_map_mappable {B : Type} (f : value -> result B) list :
  (forall x, negb (is_nullish x) = true -> exists y, f x = Ok y) ->
  (forall x, negb (is_nullish x) = false -> f x = Throw TypeError) ->
  if mappable_list list
  then exists ys, array_map (or_else list (VArr [])) f = Ok ys
  else array_map (or_else list (VArr [])) f = Throw TypeError.
Proof.
  intros Hok Hbad. unfold mappable_list, or_else.
  destruct (truthy list) eqn:Ht.
  - destruct list; try reflexivity; try discriminate. simpl.
    destruct (forallb _ items) eqn:Hall.
    + now apply (map_result_total f (fun x => negb (is_nullish x))).
    + now apply (map_result_throws f (fun x => negb (is_nullish x))).
  - simpl. now exists [].
Qed.

(** X1.  The mapper returns a lesson exactly on the inputs it can walk
    through: a value that is not null or undefined whose [voc] and [q] are
    each falsy or an array without null items.  On every other input it
    throws a TypeError. *)
Theorem mapRawToLesson_succeeds_iff raw :
  if mappable raw
  then exists lesson, mapRawToLesson raw = Ok lesson
  else mapRawToLesson raw = Throw TypeError.
Proof.
  unfold mappable. destruct (is_nullish raw) eqn:Hn; simpl.
  - unfold mapRawToLesson. now rewrite (get_nullish raw _ Hn).
  - unfold mapRawToLesson. rewrite !(get_not_nullish raw _ Hn). cbn [bind].
    pose proof (array_map_mappable mapVocabularyCard (field raw "voc")
                  mapVocabularyCard_not_nullish mapVocabularyCard_nullish) as Hv.
    pose proof (array_map_mappable mapQuizQuestion (field raw "q")
                  mapQuizQuestion_not_nullish mapQuizQuestion_nullish) as Hq.
    destruct (mappable_list (field raw "voc")); simpl.
    + destruct Hv as [cards ->]. cbn [bind].
      destruct (mappable_list (field raw "q")).
      * destruct Hq as [qs ->]. cbn [bind]. eauto.
      * now rewrite Hq.
    + now rewrite Hv.
Qed.
Lemma array_map_Forall2 {B : Type} (f : value -> result B) list ys :
  array_map (or_else list (VArr [])) f = Ok ys ->
  if truthy list
  then exists items, list = VArr items /\ Forall2 (fun x y => f x = Ok y) items ys
  else ys = [].
Proof.
  unfold or_else. destruct (truthy list) eqn:Ht.
  - destruct list; simpl; try discriminate. intros H.
    exists items. split; [reflexivity | now apply map_result_Forall2].
  - simpl. now intros [= <-].
Qed.

Lemma mapVocabularyCard_card_of item card :
  mapVocabularyCard item = Ok card -> card_of item card.
Proof.
  unfold mapVocabularyCard, card_of.
  destruct (get item "de"); [|discriminate].
  destruct (get item "en"); [|discriminate].
  destruct (get item "hi"); [|discriminate].
  destruct (get item "ex"); [|discriminate].
  simpl. now intros [= <-].
Qed.

Lemma mapQuizQuestion_question_of item q :
  mapQuizQuestion item = Ok q -> question_of item q.
Proof.
  unfold mapQuizQuestion, question_of.
  destruct (get item "qu"); [|discriminate].
  destruct (get item "ops"); [|discriminate].
  destruct (get item "ans"); [|discriminate].
  destruct (get item "exp"); [|discriminate].
  simpl. now intros [= <-].
Qed.

Lemma mapRawToLesson_vocabulary raw lesson :
  mapRawToLesson raw = Ok lesson ->
  if truthy (field raw "voc")
  then exists items,
         field raw "voc" = VArr items /\ Forall2 card_of items (vocabulary lesson)
  else vocabulary lesson = [].
Proof.
  intros Hm. destruct (is_nullish raw) eqn:Hn.
  { unfold mapRawToLesson in Hm. now rewrite (get_nullish raw _ Hn) in Hm. }
  unfold mapRawToLesson in Hm. rewrite !(get_not_nullish raw _ Hn) in Hm.
  cbn [bind] in Hm.
  destruct (array_map (or_else (field raw "voc") _) _) as [cards|] eqn:Hc;
    [|discriminate].
  cbn [bind] in Hm.
  destruct (array_map (or_else (field raw "q") _) _) as [qs|]; [|discriminate].
  cbn [bind] in Hm. injection Hm as <-. simpl.
  apply array_map_Forall2 in Hc. destruct (truthy (field raw "voc")); [|exact Hc].
  destruct Hc as (items & -> & Hall). exists items. split; [reflexivity|].
  eapply Forall2_impl; [exact Hall|]. intros x y. apply mapVocabularyCard_card_of.
Qed.

(** X2.  What the mapper returns, whenever it returns: the topic and the
    level of the payload or their defaults (so neither is ever falsy); one
    vocabulary card per item of [voc], in the same order and with the four
    fields renamed, or no card when [voc] is falsy; the questions of [q] in
    the same way, an empty list when [q] is falsy; the five remaining
    fields copied as they are. *)
Theorem mapRawToLesson_result raw lesson :
  mapRawToLesson raw = Ok lesson ->
  topic lesson = or_else (field raw "t") (VStr "Lesson")
  /\ level lesson = or_else (field raw "l") (VStr "A1")
  /\ truthy (topic lesson) = true /\ truthy (level lesson) = true
  /\ (if truthy (field raw "voc")
      then exists items,
             field raw "voc" = VArr items
             /\ Forall2 card_of items (vocabulary lesson)
      else vocabulary lesson = [])
  /\ (exists qs,
        readingQuestions lesson = Some qs
        /\ if truthy (field raw "q")
           then exists items, field raw "q" = VArr items /\ Forall2 question_of items qs
           else qs = [])
  /\ readingText lesson = field raw "txt"
  /\ readingTextTranslation lesson = field raw "txt_tr"
  /\ writingPrompt lesson = field raw "wr"
  /\ writingPoints lesson = field raw "pts"
  /\ listeningScenario lesson = field raw "lis".
Proof.
  intros Hm. pose proof (mapRawToLesson_vocabulary raw lesson Hm) as Hvoc.
  destruct (is_nullish raw) eqn:Hn.
  { unfold mapRawToLesson in Hm. now rewrite (get_nullish raw _ Hn) in Hm. }
  unfold mapRawToLesson in Hm. rewrite !(get_not_nullish raw _ Hn) in Hm.
  cbn [bind] in Hm.
  destruct (array_map (or_else (field raw "voc") _) _) as [cards|]; [|discriminate].
  cbn [bind] in Hm.
  destruct (array_map (or_else (field raw "q") _) _) as [qs|] eqn:Hq; [|discriminate].
  cbn [bind] in Hm. injection Hm as <-. cbn [topic level vocabulary readingText
    readingTextTranslation readingQuestions writingPrompt writingPoints
    listeningScenario] in *.
  repeat split; try reflexivity.
  - unfold or_else. now destruct (truthy (field raw "t")) eqn:E.
  - unfold or_else. now destruct (truthy (field raw "l")) eqn:E.
  - exact Hvoc.
  - exists qs. split; [reflexivity|].
    apply array_map_Forall2 in Hq. destruct (truthy (field raw "q")); [|exact Hq].
    destruct Hq as (items & -> & Hall). exists items. split; [reflexivity|].
    eapply Forall2_impl; [exact Hall|]. intros x y. apply mapQuizQuestion_question_of.
Qed.

Lemma mapRawToLesson_result_witness :
  exists items,
    field greetings_payload "voc" = VArr items
    /\ Forall2 card_of items
         [ {| german := VStr "Hallo"; englishExplanation := VStr "Hello";
              hindiTranslation := VStr "Namaste"; exampleSentence := VStr "Hallo!" |} ].
Proof.
  exact (proj1 (proj2 (proj2 (proj2 (proj2
           (mapRawToLesson_result greetings_payload _ eq_refl)))))).
Defined.

Lemma validateResponse_eq raw lvl :
  is_nullish raw = false ->
  validateResponse raw lvl =
  let* text_ok := check_text (field raw "txt") lvl in
  if negb text_ok then Ok false
  else if negb (truthy (field raw "voc")) then Ok false
       else let* len := get (field raw "voc") "length" in
            if strict_eq_zero len then Ok false else Ok true.
Proof.
  intros Hn. unfold validateResponse. rewrite !(get_not_nullish raw _ Hn).
  cbn [bind]. destruct (check_text _ _) as [[|]|]; reflexivity.
Qed.

Lemma validateResponse_true_voc raw lvl :
  validateResponse raw lvl = Ok true ->
  check_text (field raw "txt") lvl = Ok true
  /\ truthy (field raw "voc") = true
  /\ strict_eq_zero (field (field raw "voc") "length") = false.
Proof.
  intros Hv. destruct (is_nullish raw) eqn:Hn.
  { unfold validateResponse in Hv. now rewrite (get_nullish raw _ Hn) in Hv. }
  rewrite (validateResponse_eq raw lvl Hn) in Hv.
  destruct (check_text _ _) as [[|]|]; try discriminate. cbn in Hv.
  destruct (truthy (field raw "voc")) eqn:Ht; [|discriminate]. cbn in Hv.
  rewrite (get_not_nullish _ _ (truthy_not_nullish _ Ht)) in Hv. cbn in Hv.
  destruct (strict_eq_zero _); [discriminate|]. auto.
Qed.

Lemma validated_voc_items raw lvl lesson :
  validateResponse raw lvl = Ok true ->
  mapRawToLesson raw = Ok lesson ->
  exists items,
    field raw "voc" = VArr items /\ items <> []
    /\ Forall2 card_of items (vocabulary lesson).
Proof.
  intros Hv Hm. destruct (validateResponse_true_voc raw lvl Hv) as (_ & Ht & Hlen).
  pose proof (mapRawToLesson_vocabulary raw lesson Hm) as Hvoc.
  rewrite Ht in Hvoc. destruct Hvoc as (items & Hitems & Hall).
  exists items. repeat split; auto.
  rewrite Hitems in Hlen. cbn in Hlen. unfold num_is_zero in Hlen. cbn in Hlen.
  rewrite orb_false_r in Hlen. apply Z.eqb_neq in Hlen.
  intros ->. now apply Hlen.
Qed.

(** X3.  A lesson mapped from a payload that passed validation has at
    least one vocabulary card, and as many cards as [voc] has items. *)
Theorem validated_lesson_has_vocabulary raw lvl lesson :
  validateResponse raw lvl = Ok true ->
  mapRawToLesson raw = Ok lesson ->
  vocabulary lesson <> []
  /\ exists items, field raw "voc" = VArr items
                   /\ length (vocabulary lesson) = length items.
Proof.
  intros Hv Hm.
  destruct (validated_voc_items raw lvl lesson Hv Hm) as (items & Hitems & Hne & Hall).
  pose proof (Forall2_length _ _ _ Hall) as Hl.
  split.
  - intros Hnil. rewrite Hnil in Hl. destruct items; [now elim Hne | discriminate].
  - exists items. split; [exact Hitems | now rewrite Hl].
Qed.

Lemma validated_lesson_has_vocabulary_witness :
  vocabulary greetings_lesson <> [].
Proof.
  exact (proj1 (validated_lesson_has_vocabulary greetings_payload A0
                  greetings_lesson eq_refl eq_refl)).
Defined.






Lemma check_text_returns txt lvl :
  if negb (truthy txt) || is_string txt
  then exists b, check_text txt lvl = Ok b
  else check_text txt lvl = Throw TypeError.
Proof.
  unfold check_text. destruct (truthy txt) eqn:Ht; simpl; [|eauto].
  destruct txt; simpl; try reflexivity.
  destruct (_ <? _)%nat; [eauto|]. destruct (repetition_detected _ _); eauto.
Qed.

(** X5.  The validator gives a verdict exactly when it is handed something
    other than null or undefined whose [txt] is falsy or a string; on any
    other input it throws a TypeError, whatever the vocabulary is. *)
Theorem validateResponse_returns_iff raw lvl :
  if checkable raw
  then exists b, validateResponse raw lvl = Ok b
  else validateResponse raw lvl = Throw TypeError.
Proof.
  unfold checkable. destruct (is_nullish raw) eqn:Hn; simpl.
  - unfold validateResponse. now rewrite (get_nullish raw _ Hn).
  - rewrite (validateResponse_eq raw lvl Hn).
    pose proof (check_text_returns (field raw "txt") lvl) as Hc.
    destruct (negb (truthy (field raw "txt")) || is_string (field raw "txt")).
    + destruct Hc as [b ->]. cbn [bind]. destruct b; cbn [negb]; [|eauto].
      destruct (truthy (field raw "voc")) eqn:Ht; cbn [negb]; [|eauto].
      rewrite (get_not_nullish _ _ (truthy_not_nullish _ Ht)). cbn [bind].
      destruct (strict_eq_zero _); eauto.
    + now rewrite Hc.
Qed.

(** X6.  The feedback shown for a writing task is never the empty string. *)
Theorem evaluateWriting_never_empty r :
  exists s, evaluateWriting r = Ok s /\ s <> EmptyString.
Proof.
  destruct r as [|[[|c text]|]].
  - exists feedback_error. split; [reflexivity | unfold feedback_error; discriminate].
  - exists feedback_missing. split; [reflexivity | unfold feedback_missing; discriminate].
  - exists (String c text). split; [reflexivity | discriminate].
  - exists feedback_missing. split; [reflexivity | unfold feedback_missing; discriminate].
Qed.

(** X7.  For a payload with vocabulary whose reading text is within the
    word ceiling and holds neither [constructor] nor [__proto__], the
    verdict is exactly the repetition rule: accepted if and only if no
    word of more than three characters occurs more than eight times,
    letter case ignored. *)
Theorem validateResponse_repetition_verdict raw lvl s card cards :
  get raw "txt" = Ok (VStr s) ->
  length (split_ws s) <= maxWords lvl ->
  get raw "voc" = Ok (VArr (card :: cards)) ->
  (forall w, In w (words_of s) -> ordinary w) ->
  validateResponse raw lvl = Ok true
  <-> (forall w, (3 < String.length w)%nat -> occurrences w (words_of s) <= 8).
Proof.
  intros Htxt Hcount Hvoc Hord. split.
  - intros Hv w Hw.
    destruct (le_lt_dec (occurrences w (words_of s)) 8) as [Hle | Hgt]; [exact Hle|].
    assert (Hin : In w (words_of s)).
    { apply (count_occ_In string_dec). unfold occurrences in Hgt. lia. }
    rewrite (validateResponse_rejects_repetition raw lvl s w Htxt Hw (Hord w Hin))
      in Hv; [discriminate|].
    unfold words_of in Hgt. lia.
  - intros Hall.
    now apply (validateResponse_accepts_within_limits raw lvl s card cards).
Qed.

Lemma validateResponse_repetition_verdict_witness :
  validateResponse
    (VObj [("txt", VStr (repeat_word 9 "Haus")); ("voc", VArr [hallo_card])]) A1
  = Ok true
  <-> (forall w, (3 < String.length w)%nat ->
                 occurrences w (words_of (repeat_word 9 "Haus")) <= 8).
Proof.
  apply (validateResponse_repetition_verdict _ A1 (repeat_word 9 "Haus")
           hallo_card []); [reflexivity | vm_compute; lia | reflexivity |].
  intros w Hin. vm_compute in Hin.
  repeat (destruct Hin as [<- | Hin]; [split; discriminate|]). contradiction.
Defined.

Section Backoff.

Variable JSON_parse : string -> result value.

Lemma attempt_body_returns lvl attempt r lesson :
  attempt_body JSON_parse lvl attempt r = Ok (Some lesson) ->
  exists raw,
    parsed JSON_parse r raw /\ mapRawToLesson raw = Ok lesson
    /\ (validateResponse raw lvl = Ok true
        \/ attempt = 2 /\ validateResponse raw lvl = Ok false).
Proof.
  unfold attempt_body. destruct r as [|[text|]]; simpl; try discriminate.
  destruct text as [|c text]; simpl; [discriminate|].
  destruct (parseResponse JSON_parse (String c text)) as [raw|] eqn:Hp;
    [|discriminate].
  cbn [bind]. destruct (validateResponse raw lvl) as [[|]|] eqn:Hv;
    cbn [bind]; try discriminate.
  - destruct (mapRawToLesson raw) as [l|] eqn:Hm; [|discriminate].
    cbn [bind]. intros [= <-]. exists raw. repeat split; auto.
    exists (String c text). repeat split; [discriminate | exact Hp].
  - destruct (attempt =? 2)%nat eqn:E; [|discriminate].
    apply Nat.eqb_eq in E.
    destruct (mapRawToLesson raw) as [l|] eqn:Hm; [|discriminate].
    cbn [bind]. intros [= <-]. exists raw. repeat split; auto.
    exists (String c text). repeat split; [discriminate | exact Hp].
Qed.

Lemma generateLesson_last_attempt lvl model lesson tr :
  generateLesson JSON_parse lvl model = (Some lesson, tr) ->
  exists i,
    i < 3 /\ calls tr = S i
    /\ attempt_body JSON_parse lvl i (model i) = Ok (Some lesson).
Proof.
  unfold generateLesson. cbn [retry_loop].
  destruct (attempt_body JSON_parse lvl 0 (model 0)) as [[l0|]|e0] eqn:E0;
    [intros [= <- <-]; exists 0; repeat split; auto; lia | |];
    cbn [Nat.eqb];
    (destruct (attempt_body JSON_parse lvl 1 (model 1)) as [[l1|]|e1] eqn:E1;
     [intros [= <- <-]; exists 1; repeat split; auto; lia | |]);
    cbn [Nat.eqb];
    (destruct (attempt_body JSON_parse lvl 2 (model 2)) as [[l2|]|e2] eqn:E2;
     try discriminate);
    intros [= <- <-]; exists 2; repeat split; auto; lia.
Qed.

(** X8.  Every lesson [generateLesson] returns is the mapped payload of the
    attempt that made the last model call; that payload passed validation,
    unless the attempt was the third, whose payload is returned although
    the validator rejected it. *)
Theorem generateLesson_returns_mapped_payload lvl model lesson tr :
  generateLesson JSON_parse lvl model = (Some lesson, tr) ->
  exists i raw,
    i < 3 /\ calls tr = S i
    /\ parsed JSON_parse (model i) raw
    /\ mapRawToLesson raw = Ok lesson
    /\ (validateResponse raw lvl = Ok true
        \/ i = 2 /\ validateResponse raw lvl = Ok false).
Proof.
  intros Hgen.
  destruct (generateLesson_last_attempt lvl model lesson tr Hgen)
    as (i & Hi & Hcalls & Hbody).
  destruct (attempt_body_returns lvl i (model i) lesson Hbody)
    as (raw & Hp & Hm & Hv).
  exists i, raw. repeat split; auto.
Qed.

(** X9.  The waits of one invocation: nothing, 1000 ms, 2000 ms, or 1000 ms
    and then 2000 ms; always fewer waits than model calls, so none after
    the last call; 1000 ms is waited exactly when the first attempt went
    to the catch clause, and 2000 ms only when the second did.  A rejection
    by the validator never causes a wait. *)
Theorem generateLesson_backoff lvl model :
  (delays (snd (generateLesson JSON_parse lvl model)) = []
   \/ delays (snd (generateLesson JSON_parse lvl model)) = [1000]
   \/ delays (snd (generateLesson JSON_parse lvl model)) = [2000]
   \/ delays (snd (generateLesson JSON_parse lvl model)) = [1000; 2000])
  /\ length (delays (snd (generateLesson JSON_parse lvl model)))
     < calls (snd (generateLesson JSON_parse lvl model))
  /\ (In 1000 (delays (snd (generateLesson JSON_parse lvl model)))
      <-> attempt_throws JSON_parse lvl model 0)
  /\ (In 2000 (delays (snd (generateLesson JSON_parse lvl model)))
      -> attempt_throws JSON_parse lvl model 1).
Proof.
  unfold generateLesson, attempt_throws. cbn [retry_loop].
  destruct (attempt_body JSON_parse lvl 0 (model 0)) as [[l0|]|e0];
    cbn [Nat.eqb];
    try (destruct (attempt_body JSON_parse lvl 1 (model 1)) as [[l1|]|e1];
         cbn [Nat.eqb];
         try (destruct (attempt_body JSON_parse lvl 2 (model 2)) as [[l2|]|e2]));
    cbn -[In]; (split; [auto|]); (split; [lia|]);
    (split; [split|]);
    try (intros [e ?]; discriminate);
    try (intros []; first [ discriminate | contradiction | lia ]);
    try (intros [|[]]; first [ discriminate | contradiction | lia ]);
    eauto; try (intros _; left; reflexivity); try (intros _; eauto).
Qed.

End Backoff.

Lemma generateLesson_returns_mapped_payload_witness :
  exists i raw,
    i < 3 /\ 3 = S i
    /\ parsed JSON_parse_sample (third_time_lucky i) raw
    /\ mapRawToLesson raw = Ok greetings_lesson
    /\ (validateResponse raw A1 = Ok true
        \/ i = 2 /\ validateResponse raw A1 = Ok false).
Proof.
  apply (generateLesson_returns_mapped_payload JSON_parse_sample A1
           third_time_lucky greetings_lesson
           {| calls := 3; delays := [1000; 2000] |}).
  reflexivity.
Defined.

(** * The lesson session *)

Lemma stage_eqb_eq a b : stage_eqb a b = true -> a = b.
Proof. destruct a, b; intros H; try reflexivity; discriminate. Qed.

Section SessionProperties.

Variable same_number : nat -> value -> bool.
Variable lvl : LanguageLevel.

Lemma loadContent_ok data : session_ok (loadContent true data initial_session).
Proof.
  destruct data as [lesson|]; [|reflexivity].
  unfold loadContent, session_ok.
  destruct (0 <? length (vocabulary lesson))%nat eqn:Hv;
    [|destruct (truthy (readingText lesson)) eqn:Hr;
      [|destruct (truthy (writingPrompt lesson)) eqn:Hw]];
    simpl; repeat split; try congruence; try (intros ?; discriminate);
    try (intros ? ? H; rewrite lookup_empty in H; discriminate);
    try (rewrite map_size_empty; lia).
  intros _. now apply Nat.ltb_lt in Hv.
Qed.

Lemma handleNext_ok s :
  session_ok s -> stage s = Vocab \/ stage s = Reading -> session_ok (handleNext s).
Proof.
  unfold session_ok, handleNext. destruct (content s) as [c|] eqn:Hc.
  2:{ intros -> [H | H]; discriminate. }
  intros (Hload & Hcard & Hread & Hwrite & Hkeys & Hscore) Hstage.
  destruct Hstage as [Hst | Hst]; rewrite Hst in *; simpl in Hscore.
  - destruct (_ <? _)%Z eqn:Hlt.
    + simpl. rewrite Hc. simpl. rewrite Hst. apply Z.ltb_lt in Hlt.
      repeat split; try congruence; try assumption; simpl; try lia.
    + destruct (truthy (readingText c)) eqn:Hr;
        [|destruct (truthy (writingPrompt c)) eqn:Hw];
        simpl; rewrite Hc; simpl;
        repeat split; try congruence; try assumption; simpl; lia.
  - destruct (truthy (writingPrompt c)) eqn:Hw;
      simpl; rewrite Hc; simpl;
      repeat split; try congruence; try assumption; simpl; lia.
Qed.

Lemma dispatch_ok s ev :
  session_ok s -> session_ok (dispatch same_number lvl s ev).
Proof.
  intros Hok. unfold dispatch. destruct (enabled lvl ev s) eqn:En; [|exact Hok].
  unfold enabled in En. destruct (content s) as [c|] eqn:Hc; [|discriminate].
  destruct ev; simpl handle.
  - apply stage_eqb_eq in En. apply handleNext_ok; auto.
  - rewrite Hc.
    apply andb_true_iff in En as [En Hfree].
    apply andb_true_iff in En as [En Hq].
    apply andb_true_iff in En as [Hst Hr]. apply stage_eqb_eq in Hst.
    apply bool_decide_eq_true in Hfree.
    destruct (questions_of c !! idx) as [q|] eqn:Hidx; [|discriminate].
    unfold session_ok in *. rewrite Hc in Hok.
    destruct Hok as (Hload & Hcard & Hread & Hwrite & Hkeys & Hscore).
    rewrite Hst in Hscore. simpl in Hscore.
    assert (Hsize : size (<[idx := optIdx]> (readingAnswers s))
                    = S (size (readingAnswers s)))
      by now apply map_size_insert_None.
    unfold selectOption.
    destruct (same_number optIdx (correctAnswer q)); simpl; rewrite Hc;
      (repeat split; try assumption; simpl; try (rewrite Hsize, Hst; simpl; lia);
       intros i o Hio;
       destruct (decide (idx = i)) as [<- | Hne];
       [ now apply lookup_lt_Some in Hidx
       | rewrite lookup_insert_ne in Hio by exact Hne; eauto ]).
  - unfold session_ok in *. simpl. now rewrite Hc in *.
  - apply andb_true_iff in En as [En _]. apply andb_true_iff in En as [Hst _].
    apply stage_eqb_eq in Hst. apply handleNext_ok; auto.
  - unfold session_ok in *. simpl. now rewrite Hc in *.
  - apply andb_true_iff in En as [Hst _]. apply stage_eqb_eq in Hst.
    unfold session_ok in *. rewrite Hc in Hok.
    destruct Hok as (Hload & Hcard & Hread & Hwrite & Hkeys & Hscore).
    rewrite Hst in Hscore. simpl in Hscore.
    unfold submitWriting. rewrite Hc, (Hwrite Hst).
    destruct (evaluateWriting r) as [feedback|e]; simpl; rewrite Hc;
      repeat split; try congruence; try assumption; simpl; try lia.
  - apply stage_eqb_eq in En.
    unfold session_ok in *. rewrite Hc in Hok.
    destruct Hok as (Hload & Hcard & Hread & Hwrite & Hkeys & Hscore).
    rewrite En in Hscore. simpl in Hscore. simpl. rewrite Hc.
    repeat split; try congruence; try assumption; simpl; lia.
Qed.

Lemma fold_dispatch_ok events : forall s,
  session_ok s -> session_ok (fold_left (dispatch same_number lvl) events s).
Proof.
  induction events as [|ev events IH]; intros s Hok; [exact Hok|].
  simpl. apply IH. now apply dispatch_ok.
Qed.

Lemma session_after_ok data events :
  session_ok (session_after same_number lvl data events).
Proof. apply fold_dispatch_ok, loadContent_ok. Qed.

End SessionProperties.

Lemma answered_at_most (answers : gmap nat nat) n :
  (forall idx opt, answers !! idx = Some opt -> idx < n) -> size answers <= n.
Proof.
  intros Hkeys. rewrite <- (size_dom answers).
  transitivity (size (set_seq 0 n : gset nat)); [|now rewrite size_set_seq].
  apply subseteq_size. intros idx Hin.
  apply elem_of_dom in Hin as [opt Hopt].
  apply elem_of_set_seq. split; [lia|]. simpl. eauto.
Qed.

Section SessionTheorems.

Variable same_number : nat -> value -> bool.
Variable lvl : LanguageLevel.

Lemma dispatch_initial ev :
  dispatch same_number lvl initial_session ev = initial_session.
Proof. reflexivity. Qed.

Lemma fold_dispatch_initial events :
  fold_left (dispatch same_number lvl) events initial_session = initial_session.
Proof. induction events as [|ev events IH]; simpl; [reflexivity | exact IH]. Qed.

(** X10.  When [generateLesson] returns null the session never leaves its
    initial state: the stage stays [Loading], where the page shows only the
    spinner, whatever the user does. *)
Theorem session_stuck_when_generation_fails JSON_parse model events :
  fst (generateLesson JSON_parse lvl model) = None ->
  session_after same_number lvl (fst (generateLesson JSON_parse lvl model)) events
  = initial_session.
Proof.
  intros ->. unfold session_after. simpl. apply fold_dispatch_initial.
Qed.

(** X11.  Outside the [Loading] stage the session always holds a lesson, so
    the branch that renders the error message for a missing lesson is
    never taken. *)
Theorem session_has_content_after_loading data events :
  stage (session_after same_number lvl data events) <> Loading ->
  exists lesson, content (session_after same_number lvl data events) = Some lesson.
Proof.
  intros Hst. pose proof (session_after_ok same_number lvl data events) as Hok.
  unfold session_ok in Hok.
  destruct (content (session_after same_number lvl data events)) as [c|]; [eauto|].
  rewrite Hok in Hst. now elim Hst.
Qed.

(** X12.  In the [Vocab] stage the index of the current card is within the
    vocabulary, so the card the page reads exists. *)
Theorem session_card_in_bounds data events :
  stage (session_after same_number lvl data events) = Vocab ->
  exists lesson card,
    content (session_after same_number lvl data events) = Some lesson
    /\ vocabulary lesson
         !! currentCardIndex (session_after same_number lvl data events)
       = Some card.
Proof.
  intros Hst. pose proof (session_after_ok same_number lvl data events) as Hok.
  unfold session_ok in Hok.
  destruct (content (session_after same_number lvl data events)) as [c|].
  - destruct Hok as (_ & Hcard & _).
    destruct (lookup_lt_is_Some_2 _ _ (Hcard Hst)) as [card Hc]. eauto.
  - rewrite Hok in Hst. discriminate.
Qed.

(** X13.  The [Reading] stage is entered only with a reading text and the
    [Writing] stage only with a writing prompt: the guard of the reading
    view holds whenever the stage is [Reading], and [submitWriting] never
    takes its early return. *)
Theorem session_stage_has_material data events lesson :
  content (session_after same_number lvl data events) = Some lesson ->
  (stage (session_after same_number lvl data events) = Reading ->
   truthy (readingText lesson) = true)
  /\ (stage (session_after same_number lvl data events) = Writing ->
      truthy (writingPrompt lesson) = true).
Proof.
  intros Hc. pose proof (session_after_ok same_number lvl data events) as Hok.
  unfold session_ok in Hok. rewrite Hc in Hok.
  destruct Hok as (_ & _ & Hr & Hw & _). auto.
Qed.

(** X14.  The score never exceeds five points for each answered question
    and ten for a submitted writing task; so at most five per reading
    question of the lesson plus ten. *)
Theorem session_score_bound data events :
  score (session_after same_number lvl data events)
  <= 5 * size (readingAnswers (session_after same_number lvl data events))
     + writing_reward (stage (session_after same_number lvl data events))
  /\ score (session_after same_number lvl data events)
     <= 5 * length (from_option questions_of []
                      (content (session_after same_number lvl data events)))
        + 10.
Proof.
  pose proof (session_after_ok same_number lvl data events) as Hok.
  unfold session_ok in Hok.
  destruct (content (session_after same_number lvl data events)) as [c|].
  - destruct Hok as (_ & _ & _ & _ & Hkeys & Hscore). split; [exact Hscore|].
    pose proof (answered_at_most _ _ Hkeys) as Hsize. simpl.
    assert (writing_reward (stage (session_after same_number lvl data events)) <= 10)
      by (destruct (stage _); simpl; lia).
    lia.
  - rewrite Hok. simpl. split; lia.
Qed.

Lemma dispatch_rank s ev :
  stage_rank (stage s) <= stage_rank (stage (dispatch same_number lvl s ev)).
Proof.
  unfold dispatch. destruct (enabled lvl ev s) eqn:En; [|lia].
  unfold enabled in En. destruct (content s) as [c|] eqn:Hc; [|discriminate].
  destruct ev; simpl handle.
  - apply stage_eqb_eq in En. unfold handleNext. rewrite Hc, En.
    destruct (_ <? _)%Z; [simpl; rewrite En; simpl; lia|].
    destruct (truthy (readingText c)); [simpl; lia|].
    destruct (truthy (writingPrompt c)); simpl; lia.
  - rewrite Hc. destruct (questions_of c !! idx); [|lia].
    unfold selectOption. destruct (same_number _ _); simpl; lia.
  - simpl. lia.
  - apply andb_true_iff in En as [En _]. apply andb_true_iff in En as [Hst _].
    apply stage_eqb_eq in Hst. unfold handleNext. rewrite Hc, Hst.
    destruct (truthy (writingPrompt c)); simpl; lia.
  - simpl. lia.
  - apply andb_true_iff in En as [Hst _]. apply stage_eqb_eq in Hst.
    unfold submitWriting. rewrite Hc.
    destruct (truthy (writingPrompt c)); [|lia].
    destruct (evaluateWriting r); simpl; rewrite Hst; simpl; lia.
  - apply stage_eqb_eq in En. simpl. rewrite En. simpl. lia.
Qed.

Lemma fold_dispatch_rank events : forall s,
  stage_rank (stage s)
  <= stage_rank (stage (fold_left (dispatch same_number lvl) events s)).
Proof.
  induction events as [|ev events IH]; intros s; simpl; [lia|].
  etransitivity; [apply (dispatch_rank s ev) | apply IH].
Qed.

(** X15.  The session only moves forward through its stages, in the order
    loading, vocabulary, reading, writing, feedback, finished: whatever the
    user does next, the stage never comes back to an earlier one. *)
Theorem session_stage_never_goes_back data events more :
  stage_rank (stage (session_after same_number lvl data events))
  <= stage_rank (stage (session_after same_number lvl data (events ++ more))).
Proof.
  unfold session_after. rewrite fold_left_app. apply fold_dispatch_rank.
Qed.

Lemma next_word_walk k : forall s c,
  content s = Some c -> stage s = Vocab ->
  currentCardIndex s + k < length (vocabulary c) ->
  content (fold_left (dispatch same_number lvl) (replicate k ClickNextWord) s)
  = Some c
  /\ stage (fold_left (dispatch same_number lvl) (replicate k ClickNextWord) s)
     = Vocab
  /\ currentCardIndex
       (fold_left (dispatch same_number lvl) (replicate k ClickNextWord) s)
     = currentCardIndex s + k.
Proof.
  induction k as [|k IH]; intros s c Hc Hst Hlt; simpl.
  - repeat split; auto; lia.
  - assert (Hstep : dispatch same_number lvl s ClickNextWord
                    = setCurrentCardIndex (currentCardIndex s + 1) s).
    { unfold dispatch, enabled. rewrite Hc, Hst. simpl.
      unfold handleNext. rewrite Hc, Hst.
      assert (Hz : (Z.of_nat (currentCardIndex s)
                    <? Z.of_nat (length (vocabulary c)) - 1)%Z = true)
        by (apply Z.ltb_lt; lia).
      now rewrite Hz. }
    rewrite Hstep.
    destruct (IH (setCurrentCardIndex (currentCardIndex s + 1) s) c)
      as (H1 & H2 & H3); simpl; auto; try lia.
    repeat split; auto. rewrite H3. simpl. lia.
Qed.

(** X16.  The vocabulary stage goes through the cards one by one: after
    [k] clicks on Next Word, [k] less than the number of cards, the page
    is still in the vocabulary stage and shows card [k]; the click on the
    last card leaves the stage, for the reading if there is a text, else
    for the writing task if there is a prompt, else for the summary. *)
Theorem session_vocabulary_walk lesson k :
  k < length (vocabulary lesson) ->
  stage (session_after same_number lvl (Some lesson) (replicate k ClickNextWord))
  = Vocab
  /\ currentCardIndex
       (session_after same_number lvl (Some lesson) (replicate k ClickNextWord))
     = k
  /\ (S k = length (vocabulary lesson) ->
      stage (session_after same_number lvl (Some lesson)
               (replicate (S k) ClickNextWord))
      = if truthy (readingText lesson) then Reading
        else if truthy (writingPrompt lesson) then Writing else Finished).
Proof.
  intros Hk.
  assert (Hload : loadContent true (Some lesson) initial_session
                  = setStage Vocab (setContent (Some lesson) initial_session)).
  { unfold loadContent.
    assert (H0 : (0 <? length (vocabulary lesson))%nat = true)
      by (apply Nat.ltb_lt; lia).
    now rewrite H0. }
  unfold session_after. rewrite Hload.
  destruct (next_word_walk k
              (setStage Vocab (setContent (Some lesson) initial_session))
              lesson eq_refl eq_refl) as (Hc & Hst & Hidx);
    [simpl; lia|].
  split; [exact Hst|]. split; [exact Hidx|].
  intros Hlast.
  replace (S k) with (k + 1) by lia.
  rewrite replicate_add, fold_left_app. simpl.
  set (s := fold_left _ (replicate k ClickNextWord) _) in *.
  unfold dispatch, enabled. rewrite Hc, Hst. simpl.
  unfold handleNext. rewrite Hc, Hst.
  assert (Hz : (Z.of_nat (currentCardIndex s)
                <? Z.of_nat (length (vocabulary lesson)) - 1)%Z = false)
    by (apply Z.ltb_ge; simpl in Hidx; lia).
  rewrite Hz.
  destruct (truthy (readingText lesson)); [reflexivity|].
  now destruct (truthy (writingPrompt lesson)).
Qed.

(** X17.  A lesson that [generateLesson] returns before its third call
    passed validation, so the session opens in the vocabulary stage on the
    first card. *)
Theorem session_opens_with_vocabulary JSON_parse model lesson tr :
  generateLesson JSON_parse lvl model = (Some lesson, tr) ->
  calls tr < 3 ->
  stage (session_after same_number lvl (Some lesson) []) = Vocab
  /\ currentCardIndex (session_after same_number lvl (Some lesson) []) = 0
  /\ exists card, vocabulary lesson !! 0 = Some card.
Proof.
  intros Hgen Hcalls.
  destruct (generateLesson_last_attempt JSON_parse lvl model lesson tr Hgen)
    as (i & Hi & Hc & Hbody).
  destruct (attempt_body_returns JSON_parse lvl i (model i) lesson Hbody)
    as (raw & _ & Hm & Hv).
  destruct Hv as [Hv | [-> _]]; [|lia].
  destruct (validated_voc_items raw lvl lesson Hv Hm) as (items & _ & Hne & Hall).
  destruct (vocabulary lesson) as [|card cards] eqn:Hvoc.
  { inversion Hall; subst. now elim Hne. }
  unfold session_after, loadContent. simpl. rewrite Hvoc. simpl. eauto.
Qed.

End SessionTheorems.


(** * The application around the session *)

Lemma progress_at_set_same cp lvl p n :
  progress_at cp lvl = Some p ->
  progress_at (set_lessonsDone cp lvl n) lvl
  = Some {| lessonsDone := n; totalLessons := totalLessons p |}.
Proof. destruct lvl; simpl; [discriminate | | |]; now intros [= <-]. Qed.

Lemma progress_at_set_other cp lvl lvl' n :
  lvl' <> lvl ->
  progress_at (set_lessonsDone cp lvl n) lvl' = progress_at cp lvl'.
Proof. destruct lvl, lvl'; simpl; congruence. Qed.

Lemma takeLesson_eq type lvl now score app :
  takeLesson type lvl now score app =
  let* next := lessonCompleteUpdate (Some (type, lvl)) now score (state app) in
  Ok {| state := next; view := ViewDashboard; activeLessonType := None |}.
Proof. reflexivity. Qed.

(** X18.  Finishing a lesson the dashboard offers throws a TypeError
    exactly when it is the daily training of a learner whose current level
    is A0, for which the course progress has no entry; every other offered
    lesson brings the app back to the dashboard with the profile as it
    was. *)
Theorem offered_lesson_completion app type lvl now score :
  In (type, lvl) (dashboard_offers (profile (state app))) ->
  (lvl = A0 <-> type = Daily /\ currentLevel (profile (state app)) = A0)
  /\ (lvl = A0 -> takeLesson type lvl now score app = Throw TypeError)
  /\ (lvl <> A0 ->
      exists next,
        takeLesson type lvl now score app = Ok next
        /\ view next = ViewDashboard /\ activeLessonType next = None
        /\ profile (state next) = profile (state app)).
Proof.
  intros Hin. split; [|split].
  - unfold dashboard_offers in Hin. simpl in Hin.
    destruct (currentLevel (profile (state app))) eqn:Hl; simpl in Hin;
      intuition (try congruence).
  - intros ->. reflexivity.
  - intros Hne. rewrite takeLesson_eq. unfold lessonCompleteUpdate.
    destruct lvl; [now elim Hne | | |]; simpl;
      destruct (_ <? _)%Z; destruct type; simpl; eauto.
Qed.

Lemma offered_lesson_completion_witness :
  takeLesson Daily A0 "2025-01-01T00:00:00.000Z" 15 fresh_app = Throw TypeError.
Proof.
  apply (proj1 (proj2 (offered_lesson_completion fresh_app Daily A0
                         "2025-01-01T00:00:00.000Z" 15
                         (or_introl eq_refl)))).
  reflexivity.
Defined.

(** X19.  After [n] daily or course lessons at a level that has a progress
    entry whose counter is within its total, the counter is the smaller of
    its old value plus [n] and the total: it counts up by one per lesson
    and stops at the total.  The totals, the counters of the other levels,
    the profile and the exam statistics are as they were. *)
Theorem lessons_done_after n : forall type lvl now score app p,
  type <> Exam ->
  progress_at (courseProgress (state app)) lvl = Some p ->
  (lessonsDone p <= totalLessons p)%Z ->
  exists next,
    takeLessons n type lvl now score app = Ok next
    /\ progress_at (courseProgress (state next)) lvl
       = Some {| lessonsDone := Z.min (lessonsDone p + Z.of_nat n) (totalLessons p);
                 totalLessons := totalLessons p |}
    /\ (forall lvl', lvl' <> lvl ->
          progress_at (courseProgress (state next)) lvl'
          = progress_at (courseProgress (state app)) lvl')
    /\ profile (state next) = profile (state app)
    /\ examStats (state next) = examStats (state app).
Proof.
  induction n as [|n IH]; intros type lvl now score app p Hty Hp Hle.
  - exists app. simpl. rewrite Z.add_0_r, Z.min_l by lia.
    destruct p. simpl. auto.
  - cbn [takeLessons]. rewrite takeLesson_eq. unfold lessonCompleteUpdate.
    rewrite Hp. cbn [bind].
    set (stats := match type with Exam => _ | _ => examStats (state app) end).
    assert (Hstats : stats = examStats (state app))
      by (subst stats; destruct type; congruence).
    destruct (lessonsDone p <? totalLessons p)%Z eqn:Hlt.
    + apply Z.ltb_lt in Hlt.
      edestruct (IH type lvl now score
                   {| state := {| profile := profile (state app);
                                  courseProgress :=
                                    set_lessonsDone (courseProgress (state app))
                                      lvl (lessonsDone p + 1);
                                  examStats := stats |};
                      view := ViewDashboard; activeLessonType := None |}
                   {| lessonsDone := lessonsDone p + 1;
                      totalLessons := totalLessons p |} Hty)
        as (next & Hrun & Hdone & Hother & Hprof & Hexam).
      * simpl. now apply progress_at_set_same.
      * simpl. lia.
      * exists next. split; [exact Hrun|]. simpl in *.
        split; [rewrite Hdone; do 2 f_equal; lia|].
        split; [|split; [exact Hprof | now rewrite Hexam]].
        intros lvl' Hne. rewrite (Hother lvl' Hne).
        now apply progress_at_set_other.
    + apply Z.ltb_ge in Hlt.
      edestruct (IH type lvl now score
                   {| state := {| profile := profile (state app);
                                  courseProgress := courseProgress (state app);
                                  examStats := stats |};
                      view := ViewDashboard; activeLessonType := None |}
                   p Hty)
        as (next & Hrun & Hdone & Hother & Hprof & Hexam).
      * exact Hp.
      * exact Hle.
      * exists next. split; [exact Hrun|]. simpl in *.
        split; [rewrite Hdone; do 2 f_equal; lia|].
        split; [exact Hother | split; [exact Hprof | now rewrite Hexam]].
Qed.

Lemma lessons_done_after_witness :
  exists next,
    takeLessons 25 Topic A1 "2025-01-01T00:00:00.000Z" 10 fresh_app = Ok next
    /\ progress_at (courseProgress (state next)) A1
       = Some {| lessonsDone := Z.min (0 + Z.of_nat 25) 20; totalLessons := 20 |}
    /\ (forall lvl', lvl' <> A1 ->
          progress_at (courseProgress (state next)) lvl'
          = progress_at (courseProgress (state fresh_app)) lvl')
    /\ profile (state next) = profile (state fresh_app)
    /\ examStats (state next) = examStats (state fresh_app).
Proof.
  apply (lessons_done_after 25 Topic A1 "2025-01-01T00:00:00.000Z" 10 fresh_app
           {| lessonsDone := 0; totalLessons := 20 |});
    [discriminate | reflexivity | simpl; lia].
Defined.

Lemma onboarding_handle_ok ev f :
  form_ok f -> onboarding_enabled ev f = true -> form_ok (onboarding_handle ev f).
Proof.
  unfold form_ok. intros ([H1 | [H23 Hname]] & Ht & Hn & Hc) En;
    destruct ev; simpl in *; rewrite ?H1 in *; simpl in *;
    try discriminate; try (repeat split; auto; fail).
  - rewrite orb_false_r in En. apply negb_true_iff, String.eqb_neq in En.
    repeat split; auto.
  - apply Nat.eqb_eq in En. destruct H23; congruence.
  - destruct H23 as [H2 | H3]; rewrite ?H2, ?H3 in *; simpl in *;
      [|discriminate].
    repeat split; auto.
Qed.

Lemma onboarding_keeps_level ev f :
  (forall lvl, ev <> PickLevel lvl) ->
  currentLevel (data (onboarding_handle ev f)) = currentLevel (data f).
Proof. destruct ev; simpl; try reflexivity. intros H. now elim (H lvl). Qed.

Lemma onboarding_result_ok events : forall f p,
  form_ok f -> onboarding_result events f = Some p ->
  name p <> EmptyString /\ targetLevel p = B1 /\ nativeLanguage p = "Hindi"
  /\ onboardingComplete p = false
  /\ (level_untouched events -> currentLevel p = currentLevel (data f)).
Proof.
  induction events as [|ev events IH]; intros f p Hok Hres; [discriminate|].
  cbn [onboarding_result] in Hres.
  assert (Hrest : level_untouched (ev :: events) -> level_untouched events).
  { intros H lvl Hin. apply (H lvl). now right. }
  destruct (onboarding_enabled ev f) eqn:En.
  - assert (Hnext : onboarding_result events (onboarding_handle ev f) = Some p ->
                    name p <> EmptyString /\ targetLevel p = B1
                    /\ nativeLanguage p = "Hindi" /\ onboardingComplete p = false
                    /\ (level_untouched (ev :: events) ->
                        currentLevel p = currentLevel (data f))).
    { intros H.
      destruct (IH _ p (onboarding_handle_ok ev f Hok En) H)
        as (Hn & Ht & Hl & Hc & Hlvl).
      repeat split; auto. intros Hun. rewrite (Hlvl (Hrest Hun)).
      apply onboarding_keeps_level. intros lvl ->. apply (Hun lvl). now left. }
    destruct ev; auto.
    injection Hres as <-. simpl in En. apply Nat.eqb_eq in En.
    destruct Hok as ([H1 | [_ Hname]] & Ht & Hl & Hc); [congruence|].
    repeat split; auto.
  - destruct (IH f p Hok Hres) as (Hn & Ht & Hl & Hc & Hlvl).
    repeat split; auto.
Qed.

(** X20.  The profile the onboarding hands over always has a name that is
    not empty, the target level B1, the native language Hindi and the
    completion flag still unset; and when no level button was clicked its
    current level is the preselected A0. *)
Theorem onboarding_profile events p :
  onboarding_result events initial_form = Some p ->
  name p <> EmptyString /\ targetLevel p = B1 /\ nativeLanguage p = "Hindi"
  /\ onboardingComplete p = false
  /\ (level_untouched events -> currentLevel p = A0).
Proof.
  intros Hres. apply (onboarding_result_ok events initial_form p); [|exact Hres].
  unfold form_ok. simpl. auto.
Qed.

Lemma onboarding_profile_witness :
  name (data (onboarding_handle (TypeName "Ria") initial_form)) <> EmptyString.
Proof.
  apply (onboarding_profile
           [TypeName "Ria"; ClickNext; ClickNext; PickDevanagari true; ClickStart]
           {| name := "Ria"; targetLevel := B1; currentLevel := A0;
              dailyMinutes := 20; nativeLanguage := "Hindi";
              readDevanagari := true; onboardingComplete := false |}).
  reflexivity.
Defined.

(** X21.  A learner who goes through the onboarding without choosing a
    level arrives on the dashboard with the completion flag set and the
    daily training of level A0 on offer, and finishing that training
    throws a TypeError, whatever the score. *)
Theorem first_daily_lesson_throws events p now score :
  onboarding_result events initial_form = Some p ->
  level_untouched events ->
  view (handleOnboardingComplete p fresh_app) = ViewDashboard
  /\ onboardingComplete (profile (state (handleOnboardingComplete p fresh_app)))
     = true
  /\ In (Daily, A0)
        (dashboard_offers (profile (state (handleOnboardingComplete p fresh_app))))
  /\ takeLesson Daily A0 now score (handleOnboardingComplete p fresh_app)
     = Throw TypeError.
Proof.
  intros Hres Hun.
  destruct (onboarding_result_ok events initial_form p) as (_ & _ & _ & _ & Hlvl);
    [unfold form_ok; simpl; auto | exact Hres |].
  specialize (Hlvl Hun). simpl in Hlvl.
  repeat split; try reflexivity.
  unfold dashboard_offers. simpl. rewrite Hlvl. now left.
Qed.

Lemma first_daily_lesson_throws_witness :
  takeLesson Daily A0 "2025-01-01T00:00:00.000Z" 25
    (handleOnboardingComplete
       {| name := "Ria"; targetLevel := B1; currentLevel := A0;
          dailyMinutes := 20; nativeLanguage := "Hindi";
          readDevanagari := true; onboardingComplete := false |} fresh_app)
  = Throw TypeError.
Proof.
  apply (first_daily_lesson_throws
           [TypeName "Ria"; ClickNext; ClickNext; PickDevanagari true; ClickStart]);
    [reflexivity|].
  intros lvl Hin. simpl in Hin. intuition discriminate.
Defined.

(** *** Closed sessions *)

(** A whole session on the sample lesson: both cards, the right answer,
    a text of ten characters or more, feedback, summary. *)
Example sample_session_to_the_end :
  stage (session_after same_integer A1 (Some sample_lesson)
           [ClickNextWord; ClickNextWord; ClickOption 0 0; ClickContinue;
            TypeWriting "Hallo, ich bin Ria."; ClickGetFeedback (Resolved (Some "Good A1"));
            ClickSeeSummary]) = Finished
  /\ score (session_after same_integer A1 (Some sample_lesson)
              [ClickNextWord; ClickNextWord; ClickOption 0 0; ClickContinue;
               TypeWriting "Hallo, ich bin Ria."; ClickGetFeedback (Resolved (Some "Good A1"));
               ClickSeeSummary]) = 15.
Proof. split; vm_compute; reflexivity. Qed.

(** The feedback button stays disabled under ten characters, and Continue
    stays away until the question is answered. *)
Example sample_session_blocked :
  stage (session_after same_integer A1 (Some sample_lesson)
           [ClickNextWord; ClickNextWord; ClickContinue]) = Reading
  /\ stage (session_after same_integer A1 (Some sample_lesson)
              [ClickNextWord; ClickNextWord; ClickOption 0 1; ClickContinue;
               TypeWriting "Hallo"; ClickGetFeedback Rejected]) = Writing.
Proof. split; vm_compute; reflexivity. Qed.

Lemma session_stuck_when_generation_fails_witness :
  session_after same_integer A1
    (fst (generateLesson JSON_parse_sample A1 (fun _ => Rejected)))
    [ClickNextWord; ClickSeeSummary]
  = initial_session.
Proof.
  apply (session_stuck_when_generation_fails same_integer A1 JSON_parse_sample).
  reflexivity.
Defined.

Lemma session_has_content_after_loading_witness :
  exists lesson,
    content (session_after same_integer A1 (Some sample_lesson) [ClickNextWord])
    = Some lesson.
Proof.
  apply (session_has_content_after_loading same_integer A1). vm_compute.
  discriminate.
Defined.

Lemma session_card_in_bounds_witness :
  exists lesson card,
    content (session_after same_integer A1 (Some sample_lesson) [ClickNextWord])
    = Some lesson
    /\ vocabulary lesson
         !! currentCardIndex
              (session_after same_integer A1 (Some sample_lesson) [ClickNextWord])
       = Some card.
Proof. apply (session_card_in_bounds same_integer A1). reflexivity. Defined.

Lemma session_stage_has_material_witness :
  (stage (session_after same_integer A1 (Some sample_lesson)
            [ClickNextWord; ClickNextWord]) = Reading ->
   truthy (readingText sample_lesson) = true)
  /\ (stage (session_after same_integer A1 (Some sample_lesson)
               [ClickNextWord; ClickNextWord]) = Writing ->
      truthy (writingPrompt sample_lesson) = true).
Proof.
  apply (session_stage_has_material same_integer A1 (Some sample_lesson)
           [ClickNextWord; ClickNextWord] sample_lesson).
  reflexivity.
Defined.

Lemma session_vocabulary_walk_witness :
  stage (session_after same_integer A1 (Some sample_lesson)
           (replicate 1 ClickNextWord)) = Vocab
  /\ currentCardIndex (session_after same_integer A1 (Some sample_lesson)
                         (replicate 1 ClickNextWord)) = 1
  /\ (2 = length (vocabulary sample_lesson) ->
      stage (session_after same_integer A1 (Some sample_lesson)
               (replicate 2 ClickNextWord))
      = if truthy (readingText sample_lesson) then Reading
        else if truthy (writingPrompt sample_lesson) then Writing else Finished).
Proof.
  apply (session_vocabulary_walk same_integer A1 sample_lesson 1). simpl. lia.
Defined.

Lemma session_opens_with_vocabulary_witness :
  stage (session_after same_integer A1 (Some greetings_lesson) []) = Vocab
  /\ currentCardIndex (session_after same_integer A1 (Some greetings_lesson) []) = 0
  /\ exists card, vocabulary greetings_lesson !! 0 = Some card.
Proof.
  apply (session_opens_with_vocabulary same_integer A1 JSON_parse_sample
           first_time_lucky greetings_lesson {| calls := 1; delays := [] |});
    [reflexivity | simpl; lia].
Defined.


(** *** The score, exactly *)

Lemma evaluateWriting_text r feedback :
  evaluateWriting r = Ok feedback -> feedback <> EmptyString.
Proof.
  destruct r as [|[[|c text]|]]; simpl; intros [= <-];
    try discriminate; unfold feedback_error, feedback_missing; discriminate.
Qed.

Section ScoreCount.

Variable same_number : nat -> value -> bool.
Variable lvl : LanguageLevel.

Lemma reading_points_insert_before qs : forall i idx optIdx answers,
  idx < i ->
  reading_points same_number i qs (<[idx := optIdx]> answers)
  = reading_points same_number i qs answers.
Proof.
  induction qs as [|q qs IH]; intros i idx optIdx answers Hlt; simpl;
    [reflexivity|].
  rewrite lookup_insert_ne by lia. now rewrite IH by lia.
Qed.

Lemma reading_points_insert qs : forall i k q optIdx answers,
  answers !! (i + k) = None -> qs !! k = Some q ->
  reading_points same_number i qs (<[i + k := optIdx]> answers)
  = reading_points same_number i qs answers
    + (if same_number optIdx (correctAnswer q) then 5 else 0).
Proof.
  induction qs as [|q0 qs IH]; intros i k q optIdx answers Hfree Hq;
    [discriminate|].
  destruct k as [|k]; simpl.
  - injection Hq as ->. rewrite Nat.add_0_r in *.
    rewrite lookup_insert_eq, Hfree.
    rewrite reading_points_insert_before by lia. simpl. lia.
  - simpl in Hq. rewrite lookup_insert_ne by lia.
    replace (i + S k) with (S i + k) in * by lia.
    rewrite (IH (S i) k q optIdx answers Hfree Hq). lia.
Qed.

Lemma reading_points_empty qs : forall i,
  reading_points same_number i qs ∅ = 0.
Proof.
  induction qs as [|q qs IH]; intros i; simpl; [reflexivity|].
  now rewrite lookup_empty, IH.
Qed.

Lemma dispatch_score_ok s ev :
  session_ok s -> score_ok same_number s ->
  score_ok same_number (dispatch same_number lvl s ev).
Proof.
  intros Hok [Hscore Hfb]. unfold dispatch.
  destruct (enabled lvl ev s) eqn:En; [|now split].
  unfold enabled in En. destruct (content s) as [c|] eqn:Hc; [|discriminate].
  unfold score_ok, writing_points_of in *. rewrite ?Hc in Hscore. simpl in Hscore.
  destruct ev; simpl handle.
  - apply stage_eqb_eq in En. unfold handleNext. rewrite Hc, En.
    destruct (_ <? _)%Z;
      [|destruct (truthy (readingText c)); [|destruct (truthy (writingPrompt c))]];
      simpl; rewrite Hc; simpl; (split; [exact Hscore|]);
      intros _; apply Hfb; rewrite En; simpl; lia.
  - rewrite Hc.
    apply andb_true_iff in En as [En Hfree].
    apply andb_true_iff in En as [En Hq].
    apply andb_true_iff in En as [Hst Hr]. apply stage_eqb_eq in Hst.
    apply bool_decide_eq_true in Hfree.
    destruct (questions_of c !! idx) as [q|] eqn:Hidx; [|discriminate].
    pose proof (reading_points_insert (questions_of c) 0 idx q optIdx
                  (readingAnswers s) Hfree Hidx) as Hins.
    simpl in Hins. unfold selectOption.
    destruct (same_number optIdx (correctAnswer q)); simpl; rewrite Hc; simpl;
      (split; [rewrite Hins; lia | exact Hfb]).
  - simpl. rewrite Hc. simpl. now split.
  - apply andb_true_iff in En as [En _]. apply andb_true_iff in En as [Hst _].
    apply stage_eqb_eq in Hst. unfold handleNext. rewrite Hc, Hst.
    destruct (truthy (writingPrompt c)); simpl; rewrite Hc; simpl;
      (split; [exact Hscore|]); intros Hr; try (simpl in Hr; lia);
      apply Hfb; rewrite Hst; simpl; lia.
  - simpl. rewrite Hc. simpl. now split.
  - apply andb_true_iff in En as [Hst _]. apply stage_eqb_eq in Hst.
    assert (Hempty : writingFeedback s = EmptyString)
      by (apply Hfb; rewrite Hst; simpl; lia).
    rewrite Hempty in Hscore. simpl in Hscore.
    unfold submitWriting. rewrite Hc.
    destruct (truthy (writingPrompt c)); [|rewrite Hc, Hempty; now split].
    destruct (evaluateWriting r) as [feedback|e] eqn:Hev; simpl; rewrite Hc; simpl.
    + apply evaluateWriting_text, String.eqb_neq in Hev. rewrite Hev.
      split; [lia|]. intros Hr. simpl in Hr. lia.
    + rewrite Hempty. simpl. split; [lia | auto].
  - apply stage_eqb_eq in En. simpl. rewrite Hc. simpl.
    split; [exact Hscore|]. intros Hr. simpl in Hr. lia.
Qed.

Lemma fold_dispatch_score_ok events : forall s,
  session_ok s -> score_ok same_number s ->
  score_ok same_number (fold_left (dispatch same_number lvl) events s).
Proof.
  induction events as [|ev events IH]; intros s Hok Hsc; [exact Hsc|].
  simpl. apply IH; [now apply dispatch_ok | now apply dispatch_score_ok].
Qed.

(** X22.  The score of a session is exactly five points for each reading
    question whose chosen option compares equal to the answer named in the
    lesson, plus ten points if feedback on a submitted text has come
    back. *)
Theorem session_score_exact data events :
  score (session_after same_number lvl data events)
  = reading_points same_number 0
      (from_option questions_of []
         (content (session_after same_number lvl data events)))
      (readingAnswers (session_after same_number lvl data events))
    + writing_points_of (session_after same_number lvl data events).
Proof.
  apply (fold_dispatch_score_ok events); [apply loadContent_ok|].
  unfold score_ok, loadContent. destruct data as [lesson|]; [|now split].
  destruct (0 <? length (vocabulary lesson))%nat;
    [|destruct (truthy (readingText lesson));
      [|destruct (truthy (writingPrompt lesson))]];
    simpl; now rewrite reading_points_empty.
Qed.

End ScoreCount.
